(** * download_artifacts.py: artifact names, existence check, download and
      comparison orchestration

    A shallow embedding of [scripts/download_artifacts.py].  Python strings
    are [string]; the artifact store, the HTTP transport, the history source,
    the baseline resolver and the comparator are collaborators that the
    script only calls, so they are fields of an environment record; files,
    the three failure logs, standard output and the calls made to the
    collaborators are the components of an explicit world threaded through
    a state-and-exception monad. *)

From Stdlib Require Import String Ascii ZArith List Lia.
From stdpp Require Import base strings gmap pretty.
Import ListNotations.
Local Open Scope string_scope.
Local Open Scope list_scope.

(** ** Python string operations used by the script *)

Module PyStr.

(** One line feed, the ["\n"] of the source. *)
Definition nl : string := String (ascii_of_nat 10) EmptyString.

(** [s.startswith(p)]. *)
Fixpoint startswith (p s : string) : bool :=
  match p, s with
  | EmptyString, _ => true
  | String a p', String b s' => if Ascii.eqb a b then startswith p' s' else false
  | String _ _, EmptyString => false
  end.

(** [p in s] on strings: [p] occurs in [s] as a substring. *)
Fixpoint contains (p s : string) : bool :=
  if startswith p s then true
  else match s with
       | EmptyString => false
       | String _ s' => contains p s'
       end.

(** Drop the first [n] characters. *)
Fixpoint drop (n : nat) (s : string) : string :=
  match n, s with
  | O, _ => s
  | S n', String _ s' => drop n' s'
  | S _, EmptyString => EmptyString
  end.

(** [sep.join(parts)]. *)
Fixpoint join (sep : string) (parts : list string) : string :=
  match parts with
  | [] => ""
  | [p] => p
  | p :: rest => p +:+ sep +:+ join sep rest
  end.

(** [s.replace(old, new)] for a non-empty [old]: every occurrence found
    scanning left to right, without overlap.  [skip] counts the characters
    of a match that are still to be passed over. *)
Fixpoint replace_go (old new : string) (skip : nat) (s : string) : string :=
  match s with
  | EmptyString => EmptyString
  | String c s' =>
      match skip with
      | S k => replace_go old new k s'
      | O =>
          if startswith old s
          then new +:+ replace_go old new (String.length old - 1) s'
          else String c (replace_go old new 0 s')
      end
  end.

Definition replace (old new s : string) : string := replace_go old new 0 s.

(** [s.split(sep)[0]] for a non-empty [sep]: the part of [s] before the
    first occurrence of [sep], all of [s] when there is none. *)
Fixpoint split_head (sep s : string) : string :=
  if startswith sep s then EmptyString
  else match s with
       | EmptyString => EmptyString
       | String c s' => String c (split_head sep s')
       end.

(** [s.count(p)] for a non-empty [p]: occurrences without overlap. *)
Fixpoint count_go (p : string) (skip : nat) (s : string) : nat :=
  match s with
  | EmptyString => 0
  | String _ s' =>
      match skip with
      | S k => count_go p k s'
      | O =>
          if startswith p s
          then S (count_go p (String.length p - 1) s')
          else count_go p 0 s'
      end
  end.

Definition count (p s : string) : nat := count_go p 0 s.

(** [str(n)] for an integer. *)
Definition str_of_Z (n : Z) : string := pretty n.

(** [repr(s)] for a string: in single quotes, in double quotes when [s]
    holds a single quote and no double quote; the quote in use and the
    backslash are escaped, tab, line feed and carriage return are written
    with their letters, the other control characters as a two-digit
    hexadecimal escape.  Bytes from 128 on stand for characters outside
    ASCII and are kept, as Python keeps the printable ones. *)
Definition squote : ascii := "'"%char.
Definition dquote : ascii := ascii_of_nat 34.
Definition backslash : ascii := ascii_of_nat 92.

Definition hex_digit (n : nat) : ascii :=
  nth n (list_ascii_of_string "0123456789abcdef") "0"%char.

Definition repr_char (quote c : ascii) : string :=
  let n := nat_of_ascii c in
  if Ascii.eqb c quote || Ascii.eqb c backslash
  then String backslash (String c EmptyString)
  else if (n =? 9)%nat then String backslash "t"
  else if (n =? 10)%nat then String backslash "n"
  else if (n =? 13)%nat then String backslash "r"
  else if (n <? 32)%nat || (n =? 127)%nat
  then String backslash
         (String "x" (String (hex_digit (n / 16))
            (String (hex_digit (n mod 16)) EmptyString)))
  else String c EmptyString.

Fixpoint repr_body (quote : ascii) (s : string) : string :=
  match s with
  | EmptyString => EmptyString
  | String c s' => repr_char quote c +:+ repr_body quote s'
  end.

Fixpoint has_char (c : ascii) (s : string) : bool :=
  match s with
  | EmptyString => false
  | String d s' => Ascii.eqb c d || has_char c s'
  end.

Definition repr (s : string) : string :=
  let quote :=
    if has_char squote s && negb (has_char dquote s) then dquote
    else squote in
  String quote (repr_body quote s +:+ String quote EmptyString).

End PyStr.

(** ** Exceptions and results *)

(** The exception classes that matter to the script.  The orchestrator's
    [except (RuntimeError, ValueError)] tells two classes from all others;
    an instance of a subclass of one of the two is represented by that
    class. *)
Inductive exn_class : Type :=
| RuntimeError
| ValueError
| IndexError
| KeyError
| OSError
| FileNotFoundError
| BadZipFile
| ConnectionError
| GithubException.

(** An exception: its class and [str(err)]. *)
Record exn : Type := Exn { exn_cls : exn_class; exn_text : string }.

(** The result of a call: a value, or a raised exception. *)
Inductive Res (A : Type) : Type :=
| Ok (a : A)
| Raise (e : exn).
Arguments Ok {A} a.
Arguments Raise {A} e.

(** [isinstance(err, (RuntimeError, ValueError))]. *)
Definition caught (e : exn) : bool :=
  match exn_cls e with
  | RuntimeError | ValueError => true
  | _ => false
  end.

(** ** [str.format] with positional arguments

    The replacement fields of the script's templates are all the empty,
    automatically numbered field [{}]; [{{] and [}}] are the escapes.  A
    lone brace is a [ValueError] and a field without an argument left an
    [IndexError] that names the index of the field, as in Python.  A field with a name, index, conversion or
    format specification does not occur in the script: the model raises a
    [KeyError] for it.  Arguments are inserted as they are, they are not
    scanned for fields. *)
Module Format.

Definition lbrace : ascii := "{"%char.
Definition rbrace : ascii := "}"%char.

Definition single_rbrace : exn :=
  Exn ValueError "Single '}' encountered in format string".
Definition single_lbrace : exn :=
  Exn ValueError "Single '{' encountered in format string".
Definition out_of_range (index : nat) : exn :=
  Exn IndexError
    ("Replacement index " +:+ pretty index
     +:+ " out of range for positional args tuple").
Definition named_field : exn := Exn KeyError "field".

Definition prepend (p : string) (r : Res string) : Res string :=
  match r with
  | Ok s => Ok (p +:+ s)
  | Raise e => Raise e
  end.

(** [format_from index s args]: the fields of [s] are filled from [args],
    the arguments not used yet; [index] is the number of those used
    already, the index of the next automatically numbered field. *)
Fixpoint format_from (index : nat) (s : string) (args : list string)
  : Res string :=
  match s with
  | EmptyString => Ok EmptyString
  | String c rest =>
      if Ascii.eqb c lbrace then
        match rest with
        | EmptyString => Raise single_lbrace
        | String d rest' =>
            if Ascii.eqb d lbrace
            then prepend "{" (format_from index rest' args)
            else if Ascii.eqb d rbrace then
              match args with
              | a :: args' => prepend a (format_from (S index) rest' args')
              | [] => Raise (out_of_range index)
              end
            else Raise named_field
        end
      else if Ascii.eqb c rbrace then
        match rest with
        | String d rest' =>
            if Ascii.eqb d rbrace
            then prepend "}" (format_from index rest' args)
            else Raise single_rbrace
        | EmptyString => Raise single_rbrace
        end
      else prepend (String c EmptyString) (format_from index rest args)
  end.

(** [s.format(...)] with the arguments [args]. *)
Definition format (s : string) (args : list string) : Res string :=
  format_from 0 s args.

(** No brace occurs in [s]. *)
Fixpoint brace_free (s : string) : bool :=
  match s with
  | EmptyString => true
  | String c rest =>
      negb (Ascii.eqb c lbrace) && negb (Ascii.eqb c rbrace)
      && brace_free rest
  end.

End Format.

(** ** The artifact name generator (source lines 27-54) *)

Definition libc : list string := ["gcc-linux"; "gcc-newlib"].
Definition arch : list string := ["rv32{}-ilp32d-{}"; "rv64{}-lp64d-{}"].
Definition multilib : list string := ["multilib"; "non-multilib"].
Definition arch_extensions : list string := ["gc"].

(** The guard of the first comprehension:
    [not ("rv32" in j and k == "multilib")]. *)
Definition supported (j k : string) : bool :=
  negb (PyStr.contains "rv32" j && String.eqb k "multilib").

(** [all_lists]: the comprehension over [libc], [arch] and [multilib], in
    that nesting order. *)
Definition all_lists : list string :=
  flat_map (fun i =>
    flat_map (fun j =>
      flat_map (fun k =>
        if supported j k then [PyStr.join "-" [i; j; k]] else [])
      multilib)
    arch)
  libc.

(** [name.format(ext, "{}")]; the templates of the table never make it
    raise, a raise would abort the generator and is kept as such. *)
Fixpoint format_all (pairs : list (string * string)) : Res (list string) :=
  match pairs with
  | [] => Ok []
  | (name, ext) :: rest =>
      match Format.format name [ext; "{}"] with
      | Raise e => Raise e
      | Ok s =>
          match format_all rest with
          | Raise e => Raise e
          | Ok l => Ok (s :: l)
          end
      end
  end.

Definition get_possible_artifact_names : Res (list string) :=
  format_all
    (flat_map (fun name => map (fun ext => (name, ext)) arch_extensions)
       all_lists).

(** ** The world of the script and its collaborators *)

(** What a file holds, as far as the script can tell: bytes that [ZipFile]
    reads as an archive with the listed members (name and text), or any
    other bytes. *)
Inductive content : Type :=
| Raw (text : string)
| Zip (members : list (string * string)).

(** The response of [requests.get]: [r.status_code] and [r.content]. *)
Record Response : Type := { status_code : Z; body : content }.

(** A record of the artifact store; [art_id] is its [id] attribute. *)
Record Artifact : Type := { art_id : N }.

(** The repository handle: [repo.get_artifacts(name).get_page(0)]. *)
Definition Repository : Type := string -> Res (list Artifact).

(** The five arguments of one call of [compare_logs]. *)
Record CompareArgs : Type := {
  base_hash_arg : string;
  base_log_arg : string;
  current_hash_arg : string;
  current_log_arg : string;
  summary_arg : string
}.

(** The collaborators, which the script calls and does not define: the
    GitHub client ([get_repo token name]), [requests.get]
    ([requests_get url token]), and the functions imported from
    [get_most_recent_ci_hash] and [compare_testsuite_log].
    [get_valid_artifact_hash] returns the hash and [str] of the identifier,
    the only use the script makes of the latter.  Each is a function of its
    arguments that returns or raises. *)
Record Env : Type := {
  get_repo : string -> string -> Res Repository;
  requests_get : string -> string -> Res Response;
  gcc_hashes : string -> bool -> Res (list string);
  get_valid_artifact_hash :
    list string -> string -> string -> Res (string * string);
  compare_logs : CompareArgs -> Res unit
}.

(** The state the script acts on.  Each of the three failure logs is the
    list of the strings written to it, one per [f.write], oldest first; they
    are kept apart from [files], the other paths the script writes
    (archives, staging directories, [./logs/<artifact>]).

    [files] is a flat map from paths, as the script writes them, to what
    the regular files there hold.  It has no directories of its own and
    compares paths as written, so it stands for the file system where
    every name is one path component and nothing lies in the way of the
    paths of a call; [log_name], [component] and [unobstructed] below say
    what that is, and the statements on what a download leaves in the file
    system are made under them. *)
Record World : Type := {
  failed_build : list string;
  failed_testsuite : list string;
  no_baseline : list string;
  files : gmap string content;
  stdout : list string;
  requests : list string;
  compared : list CompareArgs;
  summaries : list string
}.

Definition empty_world : World :=
  {| failed_build := []; failed_testsuite := []; no_baseline := [];
     files := ∅; stdout := []; requests := []; compared := [];
     summaries := [] |}.

(** ** A state-and-exception monad for the script *)

Definition M (A : Type) : Type := World -> Res A * World.

#[global] Instance M_ret : MRet M := fun A a w => (Ok a, w).

#[global] Instance M_bind : MBind M := fun A B k m w =>
  match m w with
  | (Ok a, w') => k a w'
  | (Raise e, w') => (Raise e, w')
  end.

(** A pure call that may raise. *)
Definition lift {A : Type} (r : Res A) : M A := fun w => (r, w).

(** [try: m except (RuntimeError, ValueError) as err: handler err]. *)
Definition try_except (m : M unit) (handler : exn -> M unit) : M unit :=
  fun w =>
    match m w with
    | (Raise e, w') => if caught e then handler e w' else (Raise e, w')
    | r => r
    end.

(** [for x in xs: body x]. *)
Fixpoint for_each {A : Type} (xs : list A) (body : A -> M unit) : M unit :=
  match xs with
  | [] => mret tt
  | x :: rest => body x ;; for_each rest body
  end.

(** *** Primitive effects *)

Definition print (s : string) : M unit := fun w =>
  (Ok tt,
   {| failed_build := failed_build w; failed_testsuite := failed_testsuite w;
      no_baseline := no_baseline w; files := files w;
      stdout := stdout w ++ [s]; requests := requests w;
      compared := compared w; summaries := summaries w |}).

(** [with open("./logs/failed_build.txt", "a+") as f: f.write(line)]. *)
Definition append_failed_build (line : string) : M unit := fun w =>
  (Ok tt,
   {| failed_build := failed_build w ++ [line];
      failed_testsuite := failed_testsuite w;
      no_baseline := no_baseline w; files := files w;
      stdout := stdout w; requests := requests w;
      compared := compared w; summaries := summaries w |}).

(** The same for [./logs/failed_testsuite.txt]. *)
Definition append_failed_testsuite (line : string) : M unit := fun w =>
  (Ok tt,
   {| failed_build := failed_build w;
      failed_testsuite := failed_testsuite w ++ [line];
      no_baseline := no_baseline w; files := files w;
      stdout := stdout w; requests := requests w;
      compared := compared w; summaries := summaries w |}).

(** The same for [./logs/no_baseline.txt]. *)
Definition append_no_baseline (line : string) : M unit := fun w =>
  (Ok tt,
   {| failed_build := failed_build w;
      failed_testsuite := failed_testsuite w;
      no_baseline := no_baseline w ++ [line]; files := files w;
      stdout := stdout w; requests := requests w;
      compared := compared w; summaries := summaries w |}).

Definition set_files (fs : gmap string content) (w : World) : World :=
  {| failed_build := failed_build w; failed_testsuite := failed_testsuite w;
     no_baseline := no_baseline w; files := fs;
     stdout := stdout w; requests := requests w;
     compared := compared w; summaries := summaries w |}.

(** [requests.get(url, headers=...)]: the request is made, then it returns
    or raises. *)
Definition http_get (env : Env) (url token : string) : M Response := fun w =>
  (requests_get env url token,
   {| failed_build := failed_build w; failed_testsuite := failed_testsuite w;
      no_baseline := no_baseline w; files := files w;
      stdout := stdout w; requests := requests w ++ [url];
      compared := compared w; summaries := summaries w |}).

(** [with open(path, "wb") as f: f.write(c)]. *)
Definition write_file (path : string) (c : content) : M unit := fun w =>
  (Ok tt, set_files (<[path := c]> (files w)) w).

Definition not_a_zip : exn := Exn BadZipFile "File is not a zip file".

(** [str(err)] of the [FileNotFoundError] of an operation on one path and
    of one on two paths. *)
Definition no_such_file (path : string) : exn :=
  Exn FileNotFoundError
    ("[Errno 2] No such file or directory: " +:+ PyStr.repr path).

Definition no_such_file2 (src dst : string) : exn :=
  Exn FileNotFoundError
    ("[Errno 2] No such file or directory: " +:+ PyStr.repr src
     +:+ " -> " +:+ PyStr.repr dst).

(** [ZipFile(path, "r")]: the members of the archive at [path]. *)
Definition open_zip (path : string) : M (list (string * string)) := fun w =>
  match files w !! path with
  | Some (Zip members) => (Ok members, w)
  | Some (Raw _) => (Raise not_a_zip, w)
  | None => (Raise (no_such_file path), w)
  end.

(** What [zf.extractall(path=dir)] leaves in the file map: each member is
    written below [dir], a later member of the same name over an earlier
    one. *)
Definition extracted (dir : string) (members : list (string * string))
    (fs : gmap string content) : gmap string content :=
  fold_left (fun fs m => <[dir +:+ "/" +:+ m.1 := Raw m.2]> fs) members fs.

Definition extractall (members : list (string * string)) (dir : string)
  : M unit := fun w =>
  (Ok tt, set_files (extracted dir members (files w)) w).

(** [os.rename(src, dst)]. *)
Definition os_rename (src dst : string) : M unit := fun w =>
  match files w !! src with
  | Some c => (Ok tt, set_files (<[dst := c]> (delete src (files w))) w)
  | None => (Raise (no_such_file2 src dst), w)
  end.

(** Modelled from the spec: [compare_logs] is imported from
    [compare_testsuite_log], which is not among the sources.  It is
    [compare(base_hash, base_log_path, current_hash, current_log_path,
    summary_path) -> void]; the summary at [summary_path] is its output, and
    it fails with an exception on logs it cannot compare.  One call: the
    call is made; when it succeeds the summary has been written, when it
    fails the exception is raised and no summary is counted. *)
Definition call_compare_logs (env : Env) (args : CompareArgs) : M unit :=
  fun w =>
    let w1 :=
      {| failed_build := failed_build w;
         failed_testsuite := failed_testsuite w;
         no_baseline := no_baseline w; files := files w;
         stdout := stdout w; requests := requests w;
         compared := compared w ++ [args]; summaries := summaries w |} in
    match compare_logs env args with
    | Ok _ =>
        (Ok tt,
         {| failed_build := failed_build w1;
            failed_testsuite := failed_testsuite w1;
            no_baseline := no_baseline w1; files := files w1;
            stdout := stdout w1; requests := requests w1;
            compared := compared w1;
            summaries := summaries w1 ++ [summary_arg args] |})
    | Raise e => (Raise e, w1)
    end.

(** ** The existence checker (source lines 57-81) *)

Definition check_logs (build_name : string) : string :=
  build_name +:+ "|Check logs" +:+ PyStr.nl.

Definition cannot_find (build_name : string) : string :=
  build_name +:+ "|Cannot find testsuite artifact" +:+ PyStr.nl.

Definition check_artifact_exists (artifact_name : string) (repo : Repository)
  : M Z :=
  let build_name := artifact_name in
  artifact ← lift (repo artifact_name);
  build_failed ←
    (if (length artifact =? 0)%nat then
       print ("build failed for " +:+ build_name);;
       append_failed_build (check_logs build_name);;
       mret true
     else mret false);
  let artifact_name := artifact_name +:+ "-report.log" in
  artifact ← lift (repo artifact_name);
  match artifact with
  | [] =>
      print ("testsuite failed for " +:+ build_name);;
      (if negb build_failed
       then append_failed_testsuite (cannot_find build_name)
       else mret tt);;
      mret (-1)%Z
  | a :: _ => mret (Z.of_N (art_id a))
  end.

(** ** The downloader (source lines 84-108) *)

Definition artifact_url (artifact_id : string) : string :=
  "https://api.github.com/repos/patrick-rivos/riscv-gnu-toolchain/actions/artifacts/"
  +:+ artifact_id +:+ "/zip".

Definition download_artifact (env : Env)
    (artifact_name artifact_id token : string) : M unit :=
  let artifact_zip_name := PyStr.replace ".log" ".zip" artifact_name in
  print artifact_zip_name;;
  print ("downloading: " +:+ artifact_id);;
  r ← http_get env (artifact_url artifact_id) token;
  print (PyStr.str_of_Z (status_code r));;
  write_file ("./" +:+ artifact_zip_name) (body r);;
  zf ← open_zip ("./" +:+ artifact_zip_name);
  extractall zf ("./" +:+ PyStr.split_head ".log" artifact_name);;
  os_rename
    ("./" +:+ PyStr.split_head ".log" artifact_name +:+ "/" +:+ artifact_name)
    ("./logs/" +:+ artifact_name).

(** ** The orchestrator (source lines 111-170) *)

Definition no_valid_hash : string := "No valid hash".

(** The record written when the comparator fails:
    [f"{artifact}|{err}\n"]. *)
Definition compare_failed (artifact : string) (err : exn) : string :=
  artifact +:+ "|" +:+ exn_text err +:+ PyStr.nl.

(** Lines 130-168: the rest of the loop body once the existence check has
    returned an identifier other than [-1]. *)
Definition compare_artifact (env : Env) (prev_commits : list string)
    (current_hash token artifact_name artifact : string) (artifact_id : Z)
  : M unit :=
  let compare_path := "./summaries/" +:+ (artifact +:+ "-report-summary.md") in
  let artifact := artifact +:+ "-report.log" in
  let artifact_name := artifact_name +:+ "-report.log" in
  download_artifact env artifact (PyStr.str_of_Z artifact_id) token;;
  base ← lift (get_valid_artifact_hash env prev_commits token artifact_name);
  let base_hash := base.1 in
  let base_id := base.2 in
  if String.eqb base_hash no_valid_hash then
    print ("no baseline for " +:+ artifact);;
    append_no_baseline (artifact +:+ PyStr.nl);;
    let base_hash := current_hash +:+ "-no-baseline" in
    try_except
      (call_compare_logs env
         {| base_hash_arg := base_hash;
            base_log_arg := "./logs/" +:+ artifact;
            current_hash_arg := base_hash;
            current_log_arg := "./logs/" +:+ artifact;
            summary_arg := compare_path |})
      (fun err => append_failed_testsuite (compare_failed artifact err))
  else
    base_artifact ← lift (Format.format artifact_name [base_hash]);
    download_artifact env base_artifact base_id token;;
    try_except
      (base_artifact ← lift (Format.format artifact_name [base_hash]);
       call_compare_logs env
         {| base_hash_arg := base_hash;
            base_log_arg := "./logs/" +:+ base_artifact;
            current_hash_arg := current_hash;
            current_log_arg := "./logs/" +:+ artifact;
            summary_arg := compare_path |})
      (fun err => append_failed_testsuite (compare_failed artifact err)).

(** Lines 126-168: the body of the loop for one template. *)
Definition process_artifact (env : Env) (repo : Repository)
    (prev_commits : list string) (current_hash token artifact_name : string)
  : M unit :=
  artifact ← lift (Format.format artifact_name [current_hash]);
  artifact_id ← check_artifact_exists artifact repo;
  if (artifact_id =? -1)%Z then mret tt
  else compare_artifact env prev_commits current_hash token
         artifact_name artifact artifact_id.

Definition download_and_compare_all_artifacts (env : Env)
    (current_hash token : string) : M unit :=
  repo ← lift (get_repo env token "patrick-rivos/riscv-gnu-toolchain");
  prev_commits ← lift (gcc_hashes env current_hash false);
  artifact_names ← lift get_possible_artifact_names;
  for_each artifact_names
    (process_artifact env repo prev_commits current_hash token).

(** ** The configuration table, as the specification words it

    A combination is a library variant, an architecture/ABI pattern, a
    multilib mode and an extension; its template is the three parts joined
    by [-] with the extension filled in and the hash left open. *)

Definition combination : Type := string * string * string * string.

Definition configuration_table : list combination :=
  flat_map (fun i =>
    flat_map (fun j =>
      flat_map (fun k => map (fun ext => (i, j, k, ext)) arch_extensions)
      multilib)
    arch)
  libc.

Definition render (c : combination) : Res string :=
  let '(i, j, k, ext) := c in
  Format.format (PyStr.join "-" [i; j; k]) [ext; "{}"].

(** The one unsupported pairing: the 32-bit architecture with multilib
    mode. *)
Definition rv32_multilib (c : combination) : Prop :=
  let '(_, j, k, _) := c in j = "rv32{}-ilp32d-{}" /\ k = "multilib".

Definition rv32_multilibb (c : combination) : bool :=
  let '(_, j, k, _) := c in
  String.eqb j "rv32{}-ilp32d-{}" && String.eqb k "multilib".

(** ** Vocabulary of the statements *)

(** The five components that record outcomes are the same in both worlds. *)
Definition same_outcomes (w w' : World) : Prop :=
  failed_build w' = failed_build w /\
  failed_testsuite w' = failed_testsuite w /\
  no_baseline w' = no_baseline w /\
  compared w' = compared w /\
  summaries w' = summaries w.

(** Where the downloader stores the archive and where it expects the
    extracted log. *)
Definition zip_path (artifact_name : string) : string :=
  "./" +:+ PyStr.replace ".log" ".zip" artifact_name.

Definition staged_path (artifact_name : string) : string :=
  "./" +:+ PyStr.split_head ".log" artifact_name +:+ "/" +:+ artifact_name.

(** A name the file system takes as one path component: not empty, not
    [.] or [..], without [/] and without a null character, of at most 255
    bytes. *)
Definition component (s : string) : bool :=
  negb (String.eqb s "") && negb (String.eqb s ".")
  && negb (String.eqb s "..")
  && negb (PyStr.has_char "/" s) && negb (PyStr.has_char (ascii_of_nat 0) s)
  && (String.length s <=? 255)%nat.

(** A path in the form the script writes: [./] and then components, one
    [/] between two. *)
Definition normal_path (p : string) : Prop :=
  exists cs,
    cs <> [] /\ Forall (fun c => component c = true) cs /\
    p = "./" +:+ PyStr.join "/" cs.

(** No file of [fs] lies below [p]: [p] is no directory with files in
    it. *)
Definition nothing_below (fs : gmap string content) (p : string) : Prop :=
  forall k, is_Some (fs !! k) -> PyStr.startswith (p +:+ "/") k = false.

(** A map that describes a workspace: every file is at a path of that
    form and none lies below another file. *)
Definition coherent (fs : gmap string content) : Prop :=
  forall k, is_Some (fs !! k) -> normal_path k /\ nothing_below fs k.

(** An artifact name the downloader can work on as its author meant: one
    path component in which [.log] occurs, the part before the first
    [.log], the staging directory, being a component as well. *)
Definition log_name (artifact_name : string) : Prop :=
  component artifact_name = true /\
  PyStr.contains ".log" artifact_name = true /\
  component (PyStr.split_head ".log" artifact_name) = true.

(** The members of an archive are plain files directly in it. *)
Definition plain_members (members : list (string * string)) : Prop :=
  Forall (fun m => component m.1 = true) members.


(** Nothing in the workspace lies in the way of a download of
    [artifact_name] from an archive with [members]: the archive path, the
    member paths, the staged path and the path in [./logs] are no
    directories, the staging directory and [./logs] are no regular
    files. *)
Definition unobstructed (fs : gmap string content) (artifact_name : string)
    (members : list (string * string)) : Prop :=
  coherent fs /\
  nothing_below fs (zip_path artifact_name) /\
  fs !! ("./" +:+ PyStr.split_head ".log" artifact_name) = None /\
  (forall m, In m members ->
     nothing_below fs
       (("./" +:+ PyStr.split_head ".log" artifact_name) +:+ "/" +:+ m.1)) /\
  nothing_below fs (staged_path artifact_name) /\
  nothing_below fs ("./logs/" +:+ artifact_name) /\
  fs !! "./logs" = None.


(** The arguments of the comparison with a baseline and of the comparison
    of the current log with itself, for the rendered name [artifact] (the
    template with the current hash filled in) and the rendered baseline name
    [base_artifact]. *)
Definition baseline_args (base_hash base_artifact current_hash artifact : string)
  : CompareArgs :=
  {| base_hash_arg := base_hash;
     base_log_arg := "./logs/" +:+ base_artifact +:+ "-report.log";
     current_hash_arg := current_hash;
     current_log_arg := "./logs/" +:+ artifact +:+ "-report.log";
     summary_arg := "./summaries/" +:+ artifact +:+ "-report-summary.md" |}.

Definition no_baseline_args (current_hash artifact : string) : CompareArgs :=
  {| base_hash_arg := current_hash +:+ "-no-baseline";
     base_log_arg := "./logs/" +:+ artifact +:+ "-report.log";
     current_hash_arg := current_hash +:+ "-no-baseline";
     current_log_arg := "./logs/" +:+ artifact +:+ "-report.log";
     summary_arg := "./summaries/" +:+ artifact +:+ "-report-summary.md" |}.

(** What one guarded call of the comparator with [args] leaves behind, for
    the report name [report]: a summary, a testsuite-failure record, or an
    exception that is not caught. *)
Definition verdict (env : Env) (args : CompareArgs) (report : string)
    (w w' : World) (res : Res unit) : Prop :=
  match compare_logs env args with
  | Ok _ =>
      res = Ok tt /\
      summaries w' = summaries w ++ [summary_arg args] /\
      failed_testsuite w' = failed_testsuite w
  | Raise e =>
      summaries w' = summaries w /\
      if caught e
      then res = Ok tt /\
           failed_testsuite w' = failed_testsuite w ++ [compare_failed report e]
      else res = Raise e /\ failed_testsuite w' = failed_testsuite w
  end.

(** The ways through lines 130-168: an exception before any comparison,
    the comparison without a baseline, the comparison with a baseline. *)
Definition compare_artifact_paths (env : Env) (prev_commits : list string)
    (current_hash token artifact_name artifact : string)
    (w w' : World) (res : Res unit) : Prop :=
  let report := artifact +:+ "-report.log" in
  let resolved :=
    get_valid_artifact_hash env prev_commits token
      (artifact_name +:+ "-report.log") in
  (exists e, res = Raise e /\ same_outcomes w w') \/
  (exists base_id,
     resolved = Ok (no_valid_hash, base_id) /\
     failed_build w' = failed_build w /\
     no_baseline w' = no_baseline w ++ [report +:+ PyStr.nl] /\
     compared w' = compared w ++ [no_baseline_args current_hash artifact] /\
     verdict env (no_baseline_args current_hash artifact) report w w' res) \/
  (exists base_hash base_id base_artifact,
     resolved = Ok (base_hash, base_id) /\
     base_hash <> no_valid_hash /\
     Format.format artifact_name [base_hash] = Ok base_artifact /\
     failed_build w' = failed_build w /\
     no_baseline w' = no_baseline w /\
     compared w' = compared w
                   ++ [baseline_args base_hash base_artifact current_hash artifact] /\
     verdict env (baseline_args base_hash base_artifact current_hash artifact)
       report w w' res).

(** What the existence checker does, by what page 0 holds for the build
    artifact and for the report artifact. *)
Definition check_paths (artifact_name : string) (repo : Repository)
    (w w' : World) (res : Res Z) : Prop :=
  no_baseline w' = no_baseline w /\ compared w' = compared w /\
  summaries w' = summaries w /\ requests w' = requests w /\
  match repo artifact_name with
  | Raise e =>
      res = Raise e /\ failed_build w' = failed_build w /\
      failed_testsuite w' = failed_testsuite w
  | Ok page =>
      failed_build w' =
        failed_build w
        ++ match page with [] => [check_logs artifact_name] | _ => [] end /\
      match repo (artifact_name +:+ "-report.log") with
      | Raise e => res = Raise e /\ failed_testsuite w' = failed_testsuite w
      | Ok [] =>
          res = Ok (-1)%Z /\
          failed_testsuite w' =
            failed_testsuite w
            ++ match page with [] => [] | _ => [cannot_find artifact_name] end
      | Ok (a :: _) =>
          res = Ok (Z.of_N (art_id a)) /\
          failed_testsuite w' = failed_testsuite w
      end
  end.

(** The outcomes on record: summaries written and failure records
    appended. *)
Definition outcomes (w : World) : nat :=
  length (summaries w) + length (failed_build w)
  + length (failed_testsuite w) + length (no_baseline w).

(** One outcome per name, as the specification states it: whenever the
    processing of a generated name returns, exactly one thing has been put
    on record, a summary or a failure record. *)
Definition one_outcome_as_stated : Prop :=
  forall (env : Env) (repo : Repository) (prev_commits : list string)
         (current_hash token : string) (names : list string)
         (artifact_name : string) (w w' : World),
    get_possible_artifact_names = Ok names ->
    In artifact_name names ->
    process_artifact env repo prev_commits current_hash token artifact_name w
      = (Ok tt, w') ->
    outcomes w' = outcomes w + 1.

(** A failure record [<name>|<reason>] and its line. *)
Definition record (name reason : string) : string :=
  name +:+ "|" +:+ reason +:+ PyStr.nl.

Definition record_form (line : string) : Prop :=
  exists name reason, line = record name reason.

(** The form of the failure records, as the specification states it: all
    that the processing of a generated name appends to the three logs has
    the form [<artifact-name>|<reason>]. *)
Definition record_form_as_stated : Prop :=
  forall (env : Env) (repo : Repository) (prev_commits : list string)
         (current_hash token : string) (names : list string)
         (artifact_name : string) (w : World) (d1 d2 d3 : list string),
    get_possible_artifact_names = Ok names ->
    In artifact_name names ->
    let w' := (process_artifact env repo prev_commits current_hash token
                 artifact_name w).2 in
    failed_build w' = failed_build w ++ d1 ->
    failed_testsuite w' = failed_testsuite w ++ d2 ->
    no_baseline w' = no_baseline w ++ d3 ->
    Forall record_form (d1 ++ d2 ++ d3).

(** Comparator errors, as the specification states them: whatever the
    comparator raises when called for a name is caught, recorded as a
    testsuite failure, and the loop goes on with the remaining names. *)
Definition comparator_errors_as_stated : Prop :=
  forall (env : Env) (repo : Repository) (prev_commits : list string)
         (current_hash token artifact_name : string) (rest : list string)
         (w w' : World) (res : Res unit) (args : CompareArgs) (e : exn),
    process_artifact env repo prev_commits current_hash token artifact_name w
      = (res, w') ->
    compared w' = compared w ++ [args] ->
    compare_logs env args = Raise e ->
    res = Ok tt /\
    (exists artifact,
       Format.format artifact_name [current_hash] = Ok artifact /\
       failed_testsuite w' =
         failed_testsuite w
         ++ [record (artifact +:+ "-report.log") (exn_text e)]) /\
    for_each (artifact_name :: rest)
      (process_artifact env repo prev_commits current_hash token) w
    = for_each rest
        (process_artifact env repo prev_commits current_hash token) w'.

(** The policy of the existence checker as the specification states it,
    with its reason texts [check logs] and [cannot find testsuite
    artifact]. *)
Definition check_policy_as_stated : Prop :=
  forall (artifact_name : string) (repo : Repository) (w : World),
    (repo artifact_name = Ok [] ->
     repo (artifact_name +:+ "-report.log") = Ok [] ->
     exists w',
       check_artifact_exists artifact_name repo w = (Ok (-1)%Z, w') /\
       failed_build w' =
         failed_build w
         ++ [artifact_name +:+ "|check logs"
             +:+ String (ascii_of_nat 10) EmptyString] /\
       failed_testsuite w' = failed_testsuite w) /\
    (forall b bs,
     repo artifact_name = Ok (b :: bs) ->
     repo (artifact_name +:+ "-report.log") = Ok [] ->
     exists w',
       check_artifact_exists artifact_name repo w = (Ok (-1)%Z, w') /\
       failed_testsuite w' =
         failed_testsuite w
         ++ [artifact_name +:+ "|cannot find testsuite artifact"
             +:+ String (ascii_of_nat 10) EmptyString] /\
       failed_build w' = failed_build w) /\
    (forall b bs a rest,
     repo artifact_name = Ok (b :: bs) ->
     repo (artifact_name +:+ "-report.log") = Ok (a :: rest) ->
     check_artifact_exists artifact_name repo w
       = (Ok (Z.of_N (art_id a)), w)).


(** ** Sample collaborators, used to run the script on concrete inputs *)

Module Samples.

Definition tmpl : string := "gcc-linux-rv64gc-lp64d-{}-multilib".
Definition build : string := "gcc-linux-rv64gc-lp64d-abc123-multilib".
Definition cur_log : string :=
  "gcc-linux-rv64gc-lp64d-abc123-multilib-report.log".
Definition base_log : string :=
  "gcc-linux-rv64gc-lp64d-def456-multilib-report.log".

Definition is_report (name : string) : bool :=
  PyStr.contains "-report.log" name.

(** Stores: both artifacts on page 0, none, only the build artifact, only
    the report artifact. *)
Definition repo_both : Repository := fun name =>
  if is_report name then Ok [ {| art_id := 12 |} ]
  else Ok [ {| art_id := 11 |} ].
Definition repo_none : Repository := fun _ => Ok [].
Definition repo_build_only : Repository := fun name =>
  if is_report name then Ok [] else Ok [ {| art_id := 11 |} ].
Definition repo_report_only : Repository := fun name =>
  if is_report name then Ok [ {| art_id := 12 |} ] else Ok [].

(** A transport that serves the current report under identifier 12 and
    the baseline report under identifier 7. *)
Definition net (url token : string) : Res Response :=
  if String.eqb url (artifact_url "12") then
    Ok {| status_code := 200; body := Zip [(cur_log, "PASS: a.c")] |}
  else if String.eqb url (artifact_url "7") then
    Ok {| status_code := 200; body := Zip [(base_log, "PASS: a.c")] |}
  else Raise (Exn ConnectionError "unreachable").





Definition env_of (resolver : Res (string * string)) (cmp : Res unit)
  : Env :=
  {| get_repo := fun _ _ => Ok repo_both;
     requests_get := net;
     gcc_hashes := fun _ _ => Ok ["def456"; "0a0a0a"];
     get_valid_artifact_hash := fun _ _ _ => resolver;
     compare_logs := fun _ => cmp |}.

Definition found : Res (string * string) := Ok ("def456", "7").
Definition not_found : Res (string * string) := Ok ("No valid hash", "None").

End Samples.

(** ** Vocabulary of the further properties *)

(** The template [artifact_name] with [current_hash] filled in; the empty
    string when formatting raises. *)
Definition rendered (current_hash artifact_name : string) : string :=
  match Format.format artifact_name [current_hash] with
  | Ok artifact => artifact
  | Raise _ => ""
  end.

(** Every list the world keeps is continued, never cut or rewritten: each
    one in [w] is an initial segment of the one in [w']. *)
Definition grows (w w' : World) : Prop :=
  failed_build w `prefix_of` failed_build w' /\
  failed_testsuite w `prefix_of` failed_testsuite w' /\
  no_baseline w `prefix_of` no_baseline w' /\
  stdout w `prefix_of` stdout w' /\
  requests w `prefix_of` requests w' /\
  compared w `prefix_of` compared w' /\
  summaries w `prefix_of` summaries w'.

(** A computation that only continues those lists, from any world and
    whether it returns or raises. *)
Definition monotone {A : Type} (m : M A) : Prop :=
  forall w, grows w (m w).2.

(** More sample collaborators. *)
Module Faults.

(** A store that has the report artifact under an identifier the sample
    transport does not serve. *)
Definition repo_unserved : Repository := fun _ => Ok [ {| art_id := 99 |} ].

(** A store that cannot be reached. *)
Definition repo_down : Repository :=
  fun _ => Raise (Exn GithubException "502").

(** A store with an empty first page and no answer for report names. *)
Definition repo_report_down : Repository := fun name =>
  if Samples.is_report name then Raise (Exn GithubException "502") else Ok [].

Definition env_with (repo : Repository) : Env :=
  {| get_repo := fun _ _ => Ok repo;
     requests_get := Samples.net;
     gcc_hashes := fun _ _ => Ok ["def456"];
     get_valid_artifact_hash := fun _ _ _ => Samples.found;
     compare_logs := fun _ => Ok tt |}.

End Faults.
(** ** Unfolding the monad *)

Ltac munfold :=
  unfold mbind, M_bind, mret, M_ret, lift, try_except, print,
    append_failed_build, append_failed_testsuite, append_no_baseline,
    write_file, set_files, http_get, open_zip, extractall, os_rename,
    call_compare_logs in *.

(** ** The name generator *)

Lemma names_value :
  get_possible_artifact_names =
  Ok ["gcc-linux-rv32gc-ilp32d-{}-non-multilib";
      "gcc-linux-rv64gc-lp64d-{}-multilib";
      "gcc-linux-rv64gc-lp64d-{}-non-multilib";
      "gcc-newlib-rv32gc-ilp32d-{}-non-multilib";
      "gcc-newlib-rv64gc-lp64d-{}-multilib";
      "gcc-newlib-rv64gc-lp64d-{}-non-multilib"].
Proof. reflexivity. Qed.

Lemma rv32_multilibb_spec (c : combination) :
  rv32_multilibb c = true <-> rv32_multilib c.
Proof.
  destruct c as [[[i j] k] e]. unfold rv32_multilibb, rv32_multilib.
  rewrite andb_true_iff, !String.eqb_eq. tauto.
Qed.

(** C7. The generator returns, in table order, the templates of the full
    cross-product of the configuration table from which exactly the
    combinations of the 32-bit architecture with multilib mode are left
    out: a combination of the table has its template in the output if and
    only if it is not such a pairing, and every template of the output is
    that of a combination that is not one. *)
Theorem C7_cross_product_minus_rv32_multilib :
  exists names,
    get_possible_artifact_names = Ok names /\
    format_all
      (map (fun c : combination => (PyStr.join "-" [c.1.1.1; c.1.1.2; c.1.2], c.2))
         (filter (fun c => negb (rv32_multilibb c)) configuration_table))
      = Ok names /\
    (forall c, In c configuration_table ->
       exists n, render c = Ok n /\ (In n names <-> ~ rv32_multilib c)) /\
    (forall n, In n names ->
       exists c, In c configuration_table /\ ~ rv32_multilib c /\
                 render c = Ok n).
Proof.
  eexists. split; [apply names_value|]. split; [reflexivity|]. split.
  - intros c Hc. cbv [configuration_table libc arch multilib arch_extensions
                       flat_map map app] in Hc.
    repeat (destruct Hc as [<- | Hc]); try contradiction;
      (eexists; split; [reflexivity|]);
      rewrite <- rv32_multilibb_spec;
      (split; [intros Hin; simpl in Hin |intros Hn; simpl]).
    all: try (exfalso; apply Hn; reflexivity).
    all: try (intros Hb; discriminate Hb).
    all: try (intuition discriminate).
    all: auto 10.
  - intros n Hn. simpl in Hn.
    repeat (destruct Hn as [<- | Hn]); try contradiction.
    + exists ("gcc-linux", "rv32{}-ilp32d-{}", "non-multilib", "gc").
      split; [simpl; auto 10|]. split; [|reflexivity].
      intros [_ H]; discriminate H.
    + exists ("gcc-linux", "rv64{}-lp64d-{}", "multilib", "gc").
      split; [simpl; auto 10|]. split; [|reflexivity].
      intros [H _]; discriminate H.
    + exists ("gcc-linux", "rv64{}-lp64d-{}", "non-multilib", "gc").
      split; [simpl; auto 10|]. split; [|reflexivity].
      intros [H _]; discriminate H.
    + exists ("gcc-newlib", "rv32{}-ilp32d-{}", "non-multilib", "gc").
      split; [simpl; auto 10|]. split; [|reflexivity].
      intros [_ H]; discriminate H.
    + exists ("gcc-newlib", "rv64{}-lp64d-{}", "multilib", "gc").
      split; [simpl; auto 10|]. split; [|reflexivity].
      intros [H _]; discriminate H.
    + exists ("gcc-newlib", "rv64{}-lp64d-{}", "non-multilib", "gc").
      split; [simpl; auto 10|]. split; [|reflexivity].
      intros [H _]; discriminate H.
Qed.

(** C8. Every template the generator returns has exactly one unfilled
    placeholder [{}] and no other brace: formatting it with one hash fills
    that place and nothing else, formatting it with no argument fails for
    want of one.  The architecture patterns it starts from have two
    placeholders each. *)
Theorem C8_one_placeholder :
  exists names,
    get_possible_artifact_names = Ok names /\
    Forall (fun n =>
              PyStr.count "{}" n = 1 /\
              PyStr.count "{" n = 1 /\ PyStr.count "}" n = 1 /\
              Format.format n [] = Raise (Format.out_of_range 0) /\
              exists pre post,
                n = pre +:+ "{}" +:+ post /\
                forall h, Format.format n [h] = Ok (pre +:+ h +:+ post))
           names /\
    Forall (fun j => PyStr.count "{}" j = 2) arch.
Proof.
  eexists. split; [apply names_value|]. split.
  - repeat constructor.
    + exists "gcc-linux-rv32gc-ilp32d-", "-non-multilib". split; reflexivity.
    + exists "gcc-linux-rv64gc-lp64d-", "-multilib". split; reflexivity.
    + exists "gcc-linux-rv64gc-lp64d-", "-non-multilib". split; reflexivity.
    + exists "gcc-newlib-rv32gc-ilp32d-", "-non-multilib". split; reflexivity.
    + exists "gcc-newlib-rv64gc-lp64d-", "-multilib". split; reflexivity.
    + exists "gcc-newlib-rv64gc-lp64d-", "-non-multilib". split; reflexivity.
  - repeat constructor.
Qed.

(** ** The existence checker *)

(** C4, as stated, fails on the reason texts: the record the code appends
    when neither artifact is found reads [<name>|Check logs], with a
    capital, not [<name>|check logs]. *)
Lemma C4_counterexample : ~ check_policy_as_stated.
Proof.
  intros H.
  destruct (H Samples.build Samples.repo_none empty_world) as (Hnone & _).
  destruct (Hnone eq_refl eq_refl) as (w' & Hrun & Hfb & _).
  vm_compute in Hrun. injection Hrun as <-. vm_compute in Hfb.
  discriminate Hfb.
Qed.

(** C4, amended.  The three cases of the policy, with the reason texts of
    the code.  With page 0 empty for the build artifact and for the report
    artifact, the one line [<name>|Check logs] is appended to the
    build-failure log, nothing to the other two logs, and [-1] is returned.
    With the build artifact on page 0 and no report artifact, the one line
    [<name>|Cannot find testsuite artifact] is appended to the
    testsuite-failure log, nothing to the other two, and [-1] is returned.
    With both on page 0 the identifier of the first report record is
    returned and the world is left as it was. *)
Theorem C4_check_artifact_exists_policy
    (artifact_name : string) (repo : Repository) (w : World) :
  (repo artifact_name = Ok [] ->
   repo (artifact_name +:+ "-report.log") = Ok [] ->
   exists w',
     check_artifact_exists artifact_name repo w = (Ok (-1)%Z, w') /\
     failed_build w' =
       failed_build w
       ++ [artifact_name +:+ "|Check logs"
           +:+ String (ascii_of_nat 10) EmptyString] /\
     failed_testsuite w' = failed_testsuite w /\
     no_baseline w' = no_baseline w) /\
  (forall b bs,
   repo artifact_name = Ok (b :: bs) ->
   repo (artifact_name +:+ "-report.log") = Ok [] ->
   exists w',
     check_artifact_exists artifact_name repo w = (Ok (-1)%Z, w') /\
     failed_testsuite w' =
       failed_testsuite w
       ++ [artifact_name +:+ "|Cannot find testsuite artifact"
           +:+ String (ascii_of_nat 10) EmptyString] /\
     failed_build w' = failed_build w /\
     no_baseline w' = no_baseline w) /\
  (forall b bs a rest,
   repo artifact_name = Ok (b :: bs) ->
   repo (artifact_name +:+ "-report.log") = Ok (a :: rest) ->
   check_artifact_exists artifact_name repo w = (Ok (Z.of_N (art_id a)), w)).
Proof.
  unfold check_artifact_exists. munfold.
  split; [|split].
  - intros Hb Hr. rewrite Hb, Hr. simpl. eexists. split; [reflexivity|].
    simpl. auto.
  - intros b bs Hb Hr. rewrite Hb, Hr. simpl. eexists.
    split; [reflexivity|]. simpl. auto.
  - intros b bs a rest Hb Hr. rewrite Hb, Hr. simpl. reflexivity.
Qed.

Lemma C4_check_artifact_exists_policy_witness :
  (exists w',
     check_artifact_exists Samples.build Samples.repo_none empty_world
       = (Ok (-1)%Z, w') /\
     failed_build w' =
       [Samples.build +:+ "|Check logs"
        +:+ String (ascii_of_nat 10) EmptyString] /\
     failed_testsuite w' = []) /\
  (exists w',
     check_artifact_exists Samples.build Samples.repo_build_only empty_world
       = (Ok (-1)%Z, w') /\
     failed_testsuite w' =
       [Samples.build +:+ "|Cannot find testsuite artifact"
        +:+ String (ascii_of_nat 10) EmptyString] /\
     failed_build w' = []) /\
  check_artifact_exists Samples.build Samples.repo_both empty_world
    = (Ok 12%Z, empty_world).
Proof.
  split; [|split].
  - destruct (proj1 (C4_check_artifact_exists_policy
                       Samples.build Samples.repo_none empty_world)
                eq_refl eq_refl) as (w' & E & Hb & Ht & _).
    exists w'. auto.
  - destruct (proj1 (proj2 (C4_check_artifact_exists_policy
                       Samples.build Samples.repo_build_only empty_world))
                {| art_id := 11 |} [] eq_refl eq_refl) as (w' & E & Ht & Hb & _).
    exists w'. auto.
  - apply (proj2 (proj2 (C4_check_artifact_exists_policy
                       Samples.build Samples.repo_both empty_world))
             {| art_id := 11 |} [] {| art_id := 12 |} [] eq_refl eq_refl).
Defined.

(** ** Strings *)

Lemma string_length_app (a b : string) :
  String.length (a +:+ b) = String.length a + String.length b.
Proof. induction a as [|c a IH]; simpl; [reflexivity | now rewrite IH]. Qed.

Lemma startswith_length (p s : string) :
  PyStr.startswith p s = true -> String.length p <= String.length s.
Proof.
  revert s. induction p as [|a p IH]; intros s H; simpl in *; [lia|].
  destruct s as [|b s]; [discriminate|].
  destruct (Ascii.eqb a b); [|discriminate].
  specialize (IH s H). simpl. lia.
Qed.

Lemma replace_go_length (old new : string) (s : string) :
  String.length new = String.length old -> old <> "" ->
  forall skip, skip <= String.length s ->
    String.length (PyStr.replace_go old new skip s) + skip = String.length s.
Proof.
  intros Hlen Hne. induction s as [|c s IH]; intros skip Hs; simpl in *.
  - lia.
  - destruct skip as [|k].
    + destruct (PyStr.startswith old (String c s)) eqn:E.
      * apply startswith_length in E. simpl in E.
        destruct old as [|o old]; [congruence|]. simpl in *.
        rewrite string_length_app, Hlen. simpl.
        rewrite Nat.sub_0_r.
        specialize (IH (String.length old) ltac:(lia)). lia.
      * simpl. specialize (IH 0 ltac:(lia)). lia.
    + specialize (IH k ltac:(lia)). lia.
Qed.

Lemma zip_path_length (name : string) :
  String.length (zip_path name) = 2 + String.length name.
Proof.
  unfold zip_path, PyStr.replace. rewrite string_length_app.
  pose proof (replace_go_length ".log" ".zip" name eq_refl ltac:(discriminate)
                0 ltac:(lia)) as H.
  change (String.length "./") with 2. lia.
Qed.

Lemma staged_path_length (name : string) :
  String.length (staged_path name) =
  3 + String.length (PyStr.split_head ".log" name) + String.length name.
Proof. unfold staged_path. rewrite !string_length_app. simpl. lia. Qed.

Lemma zip_path_not_staged (name : string) : zip_path name <> staged_path name.
Proof.
  intros E. apply (f_equal String.length) in E.
  rewrite zip_path_length, staged_path_length in E. lia.
Qed.

(** ** The downloader *)



Lemma staged_path_dir (name : string) :
  staged_path name = ("./" +:+ PyStr.split_head ".log" name) +:+ "/" +:+ name.
Proof. reflexivity. Qed.

Lemma download_artifact_outcomes env name id token w :
  same_outcomes w (download_artifact env name id token w).2.
Proof.
  unfold download_artifact, same_outcomes. munfold. simpl.
  destruct (requests_get env (artifact_url id) token) as [r|e]; simpl; [|tauto].
  rewrite lookup_insert_eq.
  destruct (body r) as [text|members]; simpl; [tauto|].
  match goal with |- context [match ?x with Some _ => _ | None => _ end] => destruct x end; simpl; tauto.
Qed.

Lemma download_artifact_requests env name id token w :
  requests (download_artifact env name id token w).2
  = requests w ++ [artifact_url id].
Proof.
  unfold download_artifact. munfold. simpl.
  destruct (requests_get env (artifact_url id) token) as [r|e]; simpl; [|tauto].
  rewrite lookup_insert_eq.
  destruct (body r) as [text|members]; simpl; [tauto|].
  match goal with |- context [match ?x with Some _ => _ | None => _ end] => destruct x end; simpl; tauto.
Qed.







(** An empty workspace has nothing in any way. *)
Ltac empty_workspace :=
  repeat match goal with
    | |- _ /\ _ => split
    | |- coherent _ =>
        intros ? [? Hk]; simpl in Hk; rewrite lookup_empty in Hk;
        discriminate Hk
    | |- nothing_below _ _ =>
        intros ? [? Hk]; simpl in Hk; rewrite lookup_empty in Hk;
        discriminate Hk
    | |- forall _, In _ _ -> nothing_below _ _ => intros ? _
    | |- _ !! _ = None => apply lookup_empty
    | |- component _ = true => reflexivity
    | |- PyStr.contains _ _ = true => reflexivity
    | |- plain_members _ => repeat constructor
    end.


(** ** Formatting a template that ends in a brace-free suffix *)

Lemma prepend_Ok p r s :
  Format.prepend p r = Ok s -> exists s', r = Ok s' /\ s = p +:+ s'.
Proof. destruct r; simpl; intros H; inversion H; eauto. Qed.

Lemma app_assoc_s (a b c : string) : (a +:+ b) +:+ c = a +:+ b +:+ c.
Proof.
  induction a as [|x a IH]; [reflexivity|].
  change (String x ((a +:+ b) +:+ c) = String x (a +:+ b +:+ c)).
  now rewrite IH.
Qed.

Lemma format_cons (index : nat) (c : ascii) (rest : string)
    (args : list string) :
  Format.format_from index (String c rest) args =
  if Ascii.eqb c Format.lbrace then
    match rest with
    | EmptyString => Raise Format.single_lbrace
    | String d rest' =>
        if Ascii.eqb d Format.lbrace
        then Format.prepend "{" (Format.format_from index rest' args)
        else if Ascii.eqb d Format.rbrace then
          match args with
          | a :: args' =>
              Format.prepend a (Format.format_from (S index) rest' args')
          | [] => Raise (Format.out_of_range index)
          end
        else Raise Format.named_field
    end
  else if Ascii.eqb c Format.rbrace then
    match rest with
    | String d rest' =>
        if Ascii.eqb d Format.rbrace
        then Format.prepend "}" (Format.format_from index rest' args)
        else Raise Format.single_rbrace
    | EmptyString => Raise Format.single_rbrace
    end
  else Format.prepend (String c EmptyString)
         (Format.format_from index rest args).
Proof. reflexivity. Qed.

Lemma brace_free_cons (c : ascii) (t : string) :
  Format.brace_free (String c t) = true ->
  Ascii.eqb c Format.lbrace = false /\ Ascii.eqb c Format.rbrace = false /\
  Format.brace_free t = true.
Proof.
  simpl. intros H.
  apply andb_true_iff in H as [H Ht]. apply andb_true_iff in H as [Hl Hr].
  apply negb_true_iff in Hl, Hr. auto.
Qed.

Lemma format_brace_free (index : nat) (t : string) (args : list string) :
  Format.brace_free t = true -> Format.format_from index t args = Ok t.
Proof.
  induction t as [|c t IH]; intros H; [reflexivity|].
  rewrite format_cons.
  apply brace_free_cons in H as (Hl & Hr & Ht).
  rewrite Hl, Hr, (IH Ht). reflexivity.
Qed.

Lemma format_app_bounded (t : string) :
  Format.brace_free t = true ->
  forall n s, String.length s <= n ->
  forall index args r',
    Format.format_from index (s +:+ t) args = Ok r' ->
    exists r, Format.format_from index s args = Ok r /\ r' = r +:+ t.
Proof.
  intros Ht. induction n as [n IH] using lt_wf_ind.
  intros s Hs index args r' H.
  destruct s as [|c s].
  - change ("" +:+ t) with t in H.
    rewrite (format_brace_free index t args Ht) in H. inversion H.
    exists "". split; reflexivity.
  - change (String c s +:+ t) with (String c (s +:+ t)) in H.
    rewrite format_cons in H. rewrite format_cons.
    simpl in Hs.
    destruct (Ascii.eqb c Format.lbrace) eqn:Ec.
    + destruct s as [|d s].
      * change ("" +:+ t) with t in H.
        destruct t as [|d t]; [discriminate|].
        apply brace_free_cons in Ht as (Hl & Hr & _).
        rewrite Hl, Hr in H. discriminate.
      * change (String d s +:+ t) with (String d (s +:+ t)) in H.
        cbv beta iota in H.
        simpl in Hs.
        destruct (Ascii.eqb d Format.lbrace).
        { apply prepend_Ok in H as (s' & H & ->).
          apply (IH (String.length s)) in H as (r & -> & ->); [|lia|lia].
          exists ("{" +:+ r). split; reflexivity. }
        destruct (Ascii.eqb d Format.rbrace); [|discriminate].
        destruct args as [|a args]; [discriminate|].
        apply prepend_Ok in H as (s' & H & ->).
        apply (IH (String.length s)) in H as (r & -> & ->); [|lia|lia].
        exists (a +:+ r). split; [reflexivity|]. now rewrite app_assoc_s.
    + destruct (Ascii.eqb c Format.rbrace) eqn:Er.
      * destruct s as [|d s].
        { change ("" +:+ t) with t in H.
          destruct t as [|d t]; [discriminate|].
          apply brace_free_cons in Ht as (Hl & Hr & _).
          rewrite Hr in H. discriminate. }
        change (String d s +:+ t) with (String d (s +:+ t)) in H.
        cbv beta iota in H.
        simpl in Hs.
        destruct (Ascii.eqb d Format.rbrace); [|discriminate].
        apply prepend_Ok in H as (s' & H & ->).
        apply (IH (String.length s)) in H as (r & -> & ->); [|lia|lia].
        exists ("}" +:+ r). split; reflexivity.
      * apply prepend_Ok in H as (s' & H & ->).
        apply (IH (String.length s)) in H as (r & -> & ->); [|lia|lia].
        exists (String c r). split; reflexivity.
Qed.

Lemma format_report_log (s : string) (args : list string) (r' : string) :
  Format.format (s +:+ "-report.log") args = Ok r' ->
  exists r, Format.format s args = Ok r /\ r' = r +:+ "-report.log".
Proof.
  unfold Format.format. intros H.
  eapply (format_app_bounded "-report.log" eq_refl); [|exact H].
  reflexivity.
Qed.

(** ** The orchestrator *)

Lemma guarded_compare env args report w :
  let r := try_except (call_compare_logs env args)
             (fun err => append_failed_testsuite (compare_failed report err)) w in
  verdict env args report w r.2 r.1 /\
  compared r.2 = compared w ++ [args] /\
  failed_build r.2 = failed_build w /\
  no_baseline r.2 = no_baseline w /\
  requests r.2 = requests w.
Proof.
  unfold verdict. munfold.
  destruct (compare_logs env args) as [[]|e]; simpl; [tauto|].
  destruct (caught e); simpl; tauto.
Qed.

Lemma verdict_from env args report w0 w w' res :
  summaries w0 = summaries w -> failed_testsuite w0 = failed_testsuite w ->
  verdict env args report w0 w' res -> verdict env args report w w' res.
Proof. unfold verdict. intros -> ->. exact id. Qed.

Lemma compare_artifact_cases env prev h t name artifact id w :
  compare_artifact_paths env prev h t name artifact w
    (compare_artifact env prev h t name artifact id w).2
    (compare_artifact env prev h t name artifact id w).1.
Proof.
  unfold compare_artifact_paths, compare_artifact.
  unfold mbind, M_bind, lift.
  pose proof (download_artifact_outcomes env (artifact +:+ "-report.log")
                (PyStr.str_of_Z id) t w) as H1.
  destruct (download_artifact env (artifact +:+ "-report.log")
              (PyStr.str_of_Z id) t w) as [[[]|e1] w1]; simpl in H1;
    [|left; exists e1; split; [reflexivity | exact H1]].
  destruct (get_valid_artifact_hash env prev t (name +:+ "-report.log"))
    as [[bh bid]|e2]; [|left; exists e2; split; [reflexivity | exact H1]].
  cbv beta iota zeta. simpl fst. simpl snd.
  destruct H1 as (Hfb & Hft & Hnb & Hc & Hs).
  destruct (String.eqb bh no_valid_hash) eqn:Eb.
  - apply String.eqb_eq in Eb. subst bh. right. left. exists bid.
    split; [reflexivity|].
    unfold print, append_no_baseline. cbv beta iota zeta.
    match goal with
    | |- context [try_except (call_compare_logs env ?a) ?hd ?w0] =>
        pose proof (guarded_compare env a (artifact +:+ "-report.log") w0) as G;
        cbv zeta in G;
        destruct (try_except (call_compare_logs env a) hd w0) as [res w']
    end.
    simpl in G. destruct G as (Hv & Gc & Gfb & Gnb & _). simpl.
    rewrite Gfb, Gnb, Gc, Hfb, Hnb, Hc.
    repeat split; try reflexivity.
    eapply verdict_from; [| |exact Hv]; simpl; assumption.
  - apply String.eqb_neq in Eb. 
    destruct (Format.format (name +:+ "-report.log") [bh]) as [fb|e3] eqn:Ef;
      [|left; exists e3; split; [reflexivity | repeat split; assumption]].
    apply format_report_log in Ef as Ef'. destruct Ef' as (base & Ebase & ->).
    pose proof (download_artifact_outcomes env (base +:+ "-report.log") bid t w1)
      as H2.
    destruct (download_artifact env (base +:+ "-report.log") bid t w1)
      as [[[]|e4] w2]; simpl in H2; destruct H2 as (Hfb2 & Hft2 & Hnb2 & Hc2 & Hs2);
      [|left; exists e4; split; [reflexivity | unfold same_outcomes; simpl; repeat split; congruence]].
    right. right. exists bh, bid, base.
    split; [reflexivity|]. split; [exact Eb|]. split; [exact Ebase|].
    pose proof (guarded_compare env
                  (baseline_args bh base h artifact)
                  (artifact +:+ "-report.log") w2) as G.
    cbv zeta in G.
    match goal with
    | |- context [try_except ?m ?hd w2] =>
        replace (try_except m hd w2)
          with (try_except
                  (call_compare_logs env (baseline_args bh base h artifact))
                  hd w2)
          by reflexivity
    end.
    destruct (try_except (call_compare_logs env (baseline_args bh base h artifact))
          (fun err => append_failed_testsuite
                        (compare_failed (artifact +:+ "-report.log") err)) w2)
      as [res w'].
    simpl in G. destruct G as (Hv & Gc & Gfb & Gnb & _). simpl.
    rewrite Gfb, Gnb, Gc.
    repeat split; try congruence.
    eapply verdict_from; [| |exact Hv]; congruence.
Qed.

Lemma check_artifact_exists_cases artifact_name repo w :
  check_paths artifact_name repo w
    (check_artifact_exists artifact_name repo w).2
    (check_artifact_exists artifact_name repo w).1.
Proof.
  unfold check_paths, check_artifact_exists. munfold.
  destruct (repo artifact_name) as [page|e]; [|simpl; tauto].
  destruct page as [|b bs]; simpl;
    destruct (repo (artifact_name +:+ "-report.log")) as [[|a l]|e]; simpl;
    rewrite ?app_nil_r; tauto.
Qed.

Lemma of_N_not_sentinel (n : N) : (Z.of_N n =? -1)%Z = false.
Proof. apply Z.eqb_neq. lia. Qed.

Lemma process_artifact_run env repo prev h t name w :
  process_artifact env repo prev h t name w =
  match Format.format name [h] with
  | Raise e => (Raise e, w)
  | Ok artifact =>
      match check_artifact_exists artifact repo w with
      | (Raise e, w1) => (Raise e, w1)
      | (Ok artifact_id, w1) =>
          if (artifact_id =? -1)%Z then (Ok tt, w1)
          else compare_artifact env prev h t name artifact artifact_id w1
      end
  end.
Proof.
  unfold process_artifact. unfold mbind, M_bind, lift, mret, M_ret.
  destruct (Format.format name [h]); [|reflexivity].
  destruct (check_artifact_exists a repo w) as [[i|e] w1]; [|reflexivity].
  destruct (i =? -1)%Z; reflexivity.
Qed.

(** After the existence check has found the report artifact, the loop body
    is lines 130-168 run from the world the check leaves. *)
Lemma process_artifact_found env repo prev h t name artifact a l w :
  Format.format name [h] = Ok artifact ->
  repo (artifact +:+ "-report.log") = Ok (a :: l) ->
  (exists e, process_artifact env repo prev h t name w
             = (Raise e, (check_artifact_exists artifact repo w).2)) \/
  (process_artifact env repo prev h t name w
   = compare_artifact env prev h t name artifact (Z.of_N (art_id a))
       (check_artifact_exists artifact repo w).2 /\
   (check_artifact_exists artifact repo w).1 = Ok (Z.of_N (art_id a))).
Proof.
  intros Hf Hr. rewrite process_artifact_run, Hf.
  pose proof (check_artifact_exists_cases artifact repo w) as Hc.
  unfold check_paths in Hc. rewrite Hr in Hc.
  destruct (check_artifact_exists artifact repo w) as [res w1]. simpl in *.
  destruct Hc as (_ & _ & _ & _ & Hc).
  destruct (repo artifact) as [page|e].
  - destruct Hc as (_ & -> & _). rewrite of_N_not_sentinel. right. auto.
  - destruct Hc as (-> & _). left. eauto.
Qed.

Lemma app_one_inv {A} (l : list A) (x y : A) : l ++ [x] = l ++ [y] -> x = y.
Proof. intros H. apply app_inv_head in H. now inversion H. Qed.

Lemma app_one_neq {A} (l : list A) (x : A) : l <> l ++ [x].
Proof.
  intros H. apply (f_equal (@length A)) in H.
  rewrite List.length_app in H. simpl in H. lia.
Qed.

Lemma process_found_paths env repo prev h t name artifact a l w res w' :
  Format.format name [h] = Ok artifact ->
  repo (artifact +:+ "-report.log") = Ok (a :: l) ->
  process_artifact env repo prev h t name w = (res, w') ->
  exists w1,
    no_baseline w1 = no_baseline w /\ compared w1 = compared w /\
    summaries w1 = summaries w /\
    failed_testsuite w1 = failed_testsuite w /\
    ((forall page, repo artifact = Ok page ->
        failed_build w1 =
        failed_build w
        ++ match page with [] => [check_logs artifact] | _ => [] end) /\
     (forall e, repo artifact = Raise e ->
        failed_build w1 = failed_build w)) /\
    ((exists e, res = Raise e /\ w' = w1) \/
     compare_artifact_paths env prev h t name artifact w1 w' res).
Proof.
  intros Hf Hr Hrun.
  pose proof (check_artifact_exists_cases artifact repo w) as Hc.
  unfold check_paths in Hc. rewrite Hr in Hc.
  destruct Hc as (Hnb & Hcm & Hs & _ & Hc).
  exists (check_artifact_exists artifact repo w).2.
  repeat (split; [assumption|]).
  split; [|split; [split|]].
  - destruct (repo artifact); tauto.
  - intros page Hp. rewrite Hp in Hc. tauto.
  - intros e Hp. rewrite Hp in Hc. tauto.
  - destruct (process_artifact_found env repo prev h t name artifact a l w Hf Hr)
      as [[e He]|[He _]]; rewrite He in Hrun.
    + left. exists e. now inversion Hrun.
    + right. pose proof (compare_artifact_cases env prev h t name artifact
                           (Z.of_N (art_id a))
                           (check_artifact_exists artifact repo w).2) as P.
      rewrite Hrun in P. exact P.
Qed.

(** C2. When the report artifact of the current hash is on page 0, the
    resolver returns a hash other than [No valid hash], and the processing
    of the name returns, the comparator has been called exactly once for
    that name, with the baseline hash, [./logs/<name formatted with the
    baseline hash>-report.log], the current hash, [./logs/<name formatted
    with the current hash>-report.log] and [./summaries/<name formatted with
    the current hash>-report-summary.md]. *)
Theorem C2_comparator_called_once_with_baseline
    (env : Env) (repo : Repository) (prev_commits : list string)
    (current_hash token artifact_name artifact : string)
    (a : Artifact) (l : list Artifact) (base_hash base_id : string)
    (w w' : World) :
  Format.format artifact_name [current_hash] = Ok artifact ->
  repo (artifact +:+ "-report.log") = Ok (a :: l) ->
  get_valid_artifact_hash env prev_commits token
    (artifact_name +:+ "-report.log") = Ok (base_hash, base_id) ->
  base_hash <> no_valid_hash ->
  process_artifact env repo prev_commits current_hash token artifact_name w
    = (Ok tt, w') ->
  exists base_artifact,
    Format.format artifact_name [base_hash] = Ok base_artifact /\
    compared w' =
      compared w
      ++ [ {| base_hash_arg := base_hash;
              base_log_arg := "./logs/" +:+ base_artifact +:+ "-report.log";
              current_hash_arg := current_hash;
              current_log_arg := "./logs/" +:+ artifact +:+ "-report.log";
              summary_arg :=
                "./summaries/" +:+ artifact +:+ "-report-summary.md" |} ].
Proof.
  intros Hf Hr Hres Hne Hrun.
  destruct (process_found_paths _ _ _ _ _ _ _ _ _ _ _ _ Hf Hr Hrun)
    as (w1 & _ & Hcm & _ & _ & _ & [(e & He & _)|P]); [discriminate|].
  destruct P as [(e & He & _)|[(bid & Hres' & _)|P]]; [discriminate| |].
  - rewrite Hres in Hres'. inversion Hres'. congruence.
  - destruct P as (bh & bid & base & Hres' & _ & Hb & _ & _ & Hcmp & _).
    rewrite Hres in Hres'. inversion Hres'; subst bh bid.
    exists base. split; [exact Hb|]. rewrite Hcmp, Hcm. reflexivity.
Qed.

Lemma C2_comparator_called_once_with_baseline_witness :
  exists base_artifact,
    Format.format Samples.tmpl ["def456"] = Ok base_artifact /\
    compared
      (process_artifact (Samples.env_of Samples.found (Ok tt))
         Samples.repo_both ["def456"] "abc123" "tok" Samples.tmpl
         empty_world).2
    = [ {| base_hash_arg := "def456";
           base_log_arg := "./logs/" +:+ base_artifact +:+ "-report.log";
           current_hash_arg := "abc123";
           current_log_arg := "./logs/" +:+ Samples.build +:+ "-report.log";
           summary_arg :=
             "./summaries/" +:+ Samples.build +:+ "-report-summary.md" |} ].
Proof.
  apply (C2_comparator_called_once_with_baseline
           (Samples.env_of Samples.found (Ok tt)) Samples.repo_both
           ["def456"] "abc123" "tok" Samples.tmpl Samples.build
           {| art_id := 12 |} [] "def456" "7" empty_world).
  - reflexivity.
  - reflexivity.
  - reflexivity.
  - vm_compute. discriminate.
  - vm_compute. reflexivity.
Defined.

(** C3. When the report artifact of the current hash is on page 0, the
    resolver returns [No valid hash], and the processing of the name
    returns, one line, the name of the current report artifact, has been
    appended to the no-baseline log, and the comparator has been called once,
    with the current hash followed by [-no-baseline] as base hash and the
    current log as both the base log and the current log. *)
Theorem C3_no_baseline_self_comparison
    (env : Env) (repo : Repository) (prev_commits : list string)
    (current_hash token artifact_name artifact : string)
    (a : Artifact) (l : list Artifact) (base_id : string)
    (w w' : World) :
  Format.format artifact_name [current_hash] = Ok artifact ->
  repo (artifact +:+ "-report.log") = Ok (a :: l) ->
  get_valid_artifact_hash env prev_commits token
    (artifact_name +:+ "-report.log") = Ok (no_valid_hash, base_id) ->
  process_artifact env repo prev_commits current_hash token artifact_name w
    = (Ok tt, w') ->
  no_baseline w' =
    no_baseline w ++ [(artifact +:+ "-report.log") +:+ PyStr.nl] /\
  exists args,
    compared w' = compared w ++ [args] /\
    base_hash_arg args = current_hash +:+ "-no-baseline" /\
    base_log_arg args = "./logs/" +:+ artifact +:+ "-report.log" /\
    current_log_arg args = base_log_arg args /\
    current_hash_arg args = current_hash +:+ "-no-baseline" /\
    summary_arg args = "./summaries/" +:+ artifact +:+ "-report-summary.md".
Proof.
  intros Hf Hr Hres Hrun.
  destruct (process_found_paths _ _ _ _ _ _ _ _ _ _ _ _ Hf Hr Hrun)
    as (w1 & Hnb & Hcm & _ & _ & _ & [(e & He & _)|P]); [discriminate|].
  destruct P as [(e & He & _)|[(bid & _ & _ & Hnb' & Hcmp & _)|P]];
    [discriminate| |].
  - split; [congruence|].
    exists (no_baseline_args current_hash artifact).
    split; [congruence|]. repeat split.
  - destruct P as (bh & bid & base & Hres' & Hne & _).
    rewrite Hres in Hres'. inversion Hres'. congruence.
Qed.

Lemma C3_no_baseline_self_comparison_witness :
  no_baseline
    (process_artifact (Samples.env_of Samples.not_found (Ok tt))
       Samples.repo_both ["def456"] "abc123" "tok" Samples.tmpl
       empty_world).2
  = [Samples.cur_log +:+ PyStr.nl].
Proof.
  apply (C3_no_baseline_self_comparison
           (Samples.env_of Samples.not_found (Ok tt)) Samples.repo_both
           ["def456"] "abc123" "tok" Samples.tmpl Samples.build
           {| art_id := 12 |} [] "None" empty_world).
  - reflexivity.
  - reflexivity.
  - reflexivity.
  - vm_compute. reflexivity.
Defined.

(** C1, as stated, fails: with both artifacts found and no baseline, the
    processing of one name appends a no-baseline record and the comparison
    of the log with itself writes a summary, two outcomes. *)
Lemma C1_counterexample : ~ one_outcome_as_stated.
Proof.
  intros H.
  specialize (H (Samples.env_of Samples.not_found (Ok tt)) Samples.repo_both
                ["def456"] "abc123" "tok" _ Samples.tmpl empty_world
                (process_artifact (Samples.env_of Samples.not_found (Ok tt))
                   Samples.repo_both ["def456"] "abc123" "tok" Samples.tmpl
                   empty_world).2
                names_value).
  specialize (H ltac:(simpl; tauto) ltac:(vm_compute; reflexivity)).
  vm_compute in H. discriminate H.
Qed.

Lemma verdict_outcomes env args report w w' :
  verdict env args report w w' (Ok tt) ->
  length (summaries w') + length (failed_testsuite w')
  = length (summaries w) + length (failed_testsuite w) + 1.
Proof.
  unfold verdict. destruct (compare_logs env args) as [[]|e].
  - intros (_ & -> & ->). rewrite List.length_app. simpl. lia.
  - intros (-> & H). destruct (caught e); destruct H as (H & ->);
      [|discriminate]. rewrite List.length_app. simpl. lia.
Qed.

(** C1, amended.  Whenever the processing of a name returns, at least one
    outcome has been put on record.  It is exactly one when the report
    artifact is missing (a failure record and no summary) and when the
    build artifact, the report artifact and a baseline are all found (a
    summary or a testsuite-failure record).  When both artifacts are found
    and no baseline is, a no-baseline record is appended and the comparison
    of the log with itself adds a summary or a testsuite-failure record:
    two outcomes. *)
Theorem C1_outcomes_per_name
    (env : Env) (repo : Repository) (prev_commits : list string)
    (current_hash token artifact_name artifact : string) (w w' : World) :
  Format.format artifact_name [current_hash] = Ok artifact ->
  process_artifact env repo prev_commits current_hash token artifact_name w
    = (Ok tt, w') ->
  outcomes w < outcomes w' /\
  (repo (artifact +:+ "-report.log") = Ok [] ->
   outcomes w' = outcomes w + 1 /\ summaries w' = summaries w) /\
  (forall b bs a l base_hash base_id,
     repo artifact = Ok (b :: bs) ->
     repo (artifact +:+ "-report.log") = Ok (a :: l) ->
     get_valid_artifact_hash env prev_commits token
       (artifact_name +:+ "-report.log") = Ok (base_hash, base_id) ->
     base_hash <> no_valid_hash ->
     outcomes w' = outcomes w + 1 /\
     failed_build w' = failed_build w /\ no_baseline w' = no_baseline w) /\
  (forall b bs a l base_id,
     repo artifact = Ok (b :: bs) ->
     repo (artifact +:+ "-report.log") = Ok (a :: l) ->
     get_valid_artifact_hash env prev_commits token
       (artifact_name +:+ "-report.log") = Ok (no_valid_hash, base_id) ->
     no_baseline w' =
       no_baseline w ++ [(artifact +:+ "-report.log") +:+ PyStr.nl] /\
     outcomes w' = outcomes w + 2).
Proof.
  intros Hf Hrun.
  assert (Hmissing :
    repo (artifact +:+ "-report.log") = Ok [] ->
    outcomes w' = outcomes w + 1 /\ summaries w' = summaries w).
  { intros Hr. rewrite process_artifact_run, Hf in Hrun.
    pose proof (check_artifact_exists_cases artifact repo w) as Hc.
    unfold check_paths in Hc. rewrite Hr in Hc.
    destruct (check_artifact_exists artifact repo w) as [res w1]. simpl in Hc.
    destruct Hc as (Hnb & _ & Hs & _ & Hc).
    destruct (repo artifact) as [page|e].
    - destruct Hc as (Hfb & -> & Hft). simpl in Hrun. inversion Hrun; subst w1.
      split; [|exact Hs]. unfold outcomes. rewrite Hnb, Hs, Hfb, Hft.
      rewrite !List.length_app. destruct page; simpl; lia.
    - destruct Hc as (-> & _). discriminate. }
  assert (Hfound :
    forall a l, repo (artifact +:+ "-report.log") = Ok (a :: l) ->
    exists w1,
      no_baseline w1 = no_baseline w /\ summaries w1 = summaries w /\
      failed_testsuite w1 = failed_testsuite w /\
      (forall page, repo artifact = Ok page ->
         failed_build w1 =
         failed_build w
         ++ match page with [] => [check_logs artifact] | _ => [] end) /\
      length (failed_build w) <= length (failed_build w1) /\
      compare_artifact_paths env prev_commits current_hash token
        artifact_name artifact w1 w' (Ok tt)).
  { intros a l Hr.
    destruct (process_found_paths _ _ _ _ _ _ _ _ _ _ _ _ Hf Hr Hrun)
      as (w1 & Hnb & _ & Hs & Hft & (Hfb & _) & [(e & He & _)|P]);
      [discriminate|].
    exists w1. repeat (split; [assumption|]). split; [|exact P].
    rewrite process_artifact_run, Hf in Hrun.
    pose proof (check_artifact_exists_cases artifact repo w) as Hc.
    unfold check_paths in Hc.
    destruct (repo artifact) as [page|e].
    - rewrite (Hfb page eq_refl), List.length_app. lia.
    - destruct (check_artifact_exists artifact repo w) as [r w2].
      simpl in Hc. destruct Hc as (_ & _ & _ & _ & -> & _). discriminate. }
  split; [|split; [exact Hmissing|split]].
  - destruct (repo (artifact +:+ "-report.log")) as [[|a l]|e] eqn:Hr.
    + destruct (Hmissing eq_refl) as [H _]. lia.
    + destruct (Hfound a l eq_refl)
        as (w1 & Hnb & Hs & Hft & _ & Hle & P).
      destruct P as [(e & He & _)|[P|P]]; [discriminate| |].
      * destruct P as (x & _ & Hfb' & Hnb' & _ & Hv).
        apply verdict_outcomes in Hv. rewrite Hs, Hft in Hv. unfold outcomes.
        rewrite Hnb', Hfb', List.length_app, Hnb. simpl. lia.
      * destruct P as (x & y & z & _ & _ & _ & Hfb' & Hnb' & _ & Hv).
        apply verdict_outcomes in Hv. rewrite Hs, Hft in Hv. unfold outcomes.
        rewrite Hnb', Hfb', Hnb. lia.
    + rewrite process_artifact_run, Hf in Hrun.
      pose proof (check_artifact_exists_cases artifact repo w) as Hc.
      unfold check_paths in Hc. rewrite Hr in Hc.
      destruct (check_artifact_exists artifact repo w) as [r w2].
      simpl in Hc. destruct Hc as (_ & _ & _ & _ & Hc).
      destruct (repo artifact); [destruct Hc as (_ & -> & _)|destruct Hc as (-> & _)];
        discriminate.
  - intros b bs a l bh bid Hb Hr Hres Hne.
    destruct (Hfound a l Hr) as (w1 & Hnb & Hs & Hft & Hfb & _ & P).
    specialize (Hfb _ Hb). rewrite app_nil_r in Hfb.
    destruct P as [(e & He & _)|[P|P]]; [discriminate| |].
    + destruct P as (x & Hres' & _). rewrite Hres in Hres'.
      inversion Hres'. congruence.
    + destruct P as (x & y & z & _ & _ & _ & Hfb' & Hnb' & _ & Hv).
      apply verdict_outcomes in Hv. rewrite Hs, Hft in Hv. unfold outcomes.
      rewrite Hnb', Hfb', Hnb, Hfb. repeat split; lia.
  - intros b bs a l bid Hb Hr Hres.
    destruct (Hfound a l Hr) as (w1 & Hnb & Hs & Hft & Hfb & _ & P).
    specialize (Hfb _ Hb). rewrite app_nil_r in Hfb.
    destruct P as [(e & He & _)|[P|P]]; [discriminate| |].
    + destruct P as (x & _ & Hfb' & Hnb' & _ & Hv).
      apply verdict_outcomes in Hv. rewrite Hs, Hft in Hv. unfold outcomes.
      rewrite Hnb', Hfb', List.length_app, Hnb, Hfb. simpl.
      split; [reflexivity | lia].
    + destruct P as (bh & x & y & Hres' & Hne & _). rewrite Hres in Hres'.
      inversion Hres'. congruence.
Qed.

Lemma C1_outcomes_per_name_witness :
  outcomes
    (process_artifact (Samples.env_of Samples.found (Ok tt))
       Samples.repo_both ["def456"] "abc123" "tok" Samples.tmpl
       empty_world).2 = outcomes empty_world + 1.
Proof.
  apply (proj1 (proj2 (proj2 (C1_outcomes_per_name
           (Samples.env_of Samples.found (Ok tt)) Samples.repo_both
           ["def456"] "abc123" "tok" Samples.tmpl Samples.build empty_world
           (process_artifact (Samples.env_of Samples.found (Ok tt))
              Samples.repo_both ["def456"] "abc123" "tok" Samples.tmpl
              empty_world).2
           eq_refl ltac:(vm_compute; reflexivity))))
         {| art_id := 11 |} [] {| art_id := 12 |} [] "def456" "7").
  - reflexivity.
  - reflexivity.
  - reflexivity.
  - vm_compute. discriminate.
Defined.

(** ** The form of the failure records *)

Lemma contains_cons (p : string) (c : ascii) (s : string) :
  PyStr.contains p (String c s)
  = PyStr.startswith p (String c s) || PyStr.contains p s.
Proof. simpl. destruct p; [reflexivity|]. destruct (Ascii.eqb a c); [|reflexivity].
  destruct (PyStr.startswith p s); reflexivity. Qed.

Lemma contains_app_bar (name rest : string) :
  PyStr.contains "|" (name +:+ "|" +:+ rest) = true.
Proof.
  induction name as [|c name IH]; [reflexivity|].
  change (String c name +:+ "|" +:+ rest)
    with (String c (name +:+ "|" +:+ rest)).
  rewrite contains_cons, IH. apply orb_true_r.
Qed.

Lemma record_form_bar (line : string) :
  record_form line -> PyStr.contains "|" line = true.
Proof. intros (name & reason & ->). apply contains_app_bar. Qed.

(** C6, as stated, fails: the line appended to the no-baseline log is the
    name of the report artifact alone, without [|] and without a reason. *)
Lemma C6_counterexample : ~ record_form_as_stated.
Proof.
  intros H.
  specialize (H (Samples.env_of Samples.not_found (Ok tt)) Samples.repo_both
                ["def456"] "abc123" "tok" _ Samples.tmpl empty_world
                [] [] [Samples.cur_log +:+ PyStr.nl] names_value).
  specialize (H ltac:(simpl; tauto) ltac:(vm_compute; reflexivity)
                ltac:(vm_compute; reflexivity) ltac:(vm_compute; reflexivity)).
  simpl in H. inversion H as [|line rest Hform _]; subst.
  apply record_form_bar in Hform. vm_compute in Hform. discriminate Hform.
Qed.

Lemma verdict_records env args report w w' res :
  verdict env args report w w' res ->
  failed_testsuite w' = failed_testsuite w \/
  exists e, failed_testsuite w' =
            failed_testsuite w ++ [record report (exn_text e)].
Proof.
  unfold verdict. destruct (compare_logs env args) as [[]|e].
  - intros (_ & _ & H). now left.
  - intros (_ & H). destruct (caught e); destruct H as (_ & H);
      [right; exists e; exact H | now left].
Qed.

Ltac forms :=
  rewrite ?app_nil_r; repeat split; simpl;
  repeat match goal with |- Forall _ _ => constructor end; auto.

(** C6, amended.  What the processing of a name appends to the
    build-failure log and to the testsuite-failure log has the form
    [<name>|<reason>]: [<artifact>|Check logs] in the former,
    [<artifact>|Cannot find testsuite artifact] or
    [<artifact>-report.log|<error text>] in the latter, where [<artifact>]
    is the template with the current hash filled in.  What it appends to the
    no-baseline log is the name [<artifact>-report.log] alone. *)
Theorem C6_failure_record_forms
    (env : Env) (repo : Repository) (prev_commits : list string)
    (current_hash token artifact_name : string) (w : World) :
  let w' := (process_artifact env repo prev_commits current_hash token
               artifact_name w).2 in
  exists d1 d2 d3,
    failed_build w' = failed_build w ++ d1 /\
    failed_testsuite w' = failed_testsuite w ++ d2 /\
    no_baseline w' = no_baseline w ++ d3 /\
    Forall record_form (d1 ++ d2) /\
    match Format.format artifact_name [current_hash] with
    | Raise _ => d1 = [] /\ d2 = [] /\ d3 = []
    | Ok artifact =>
        Forall (fun line => line = record artifact "Check logs") d1 /\
        Forall (fun line =>
                  line = record artifact "Cannot find testsuite artifact" \/
                  exists e,
                    line = record (artifact +:+ "-report.log") (exn_text e))
               d2 /\
        Forall (fun line => line = (artifact +:+ "-report.log") +:+ PyStr.nl)
               d3
    end.
Proof.
  intros w'. subst w'.
  assert (Hcl : forall n, record_form (check_logs n))
    by (intros n; exists n, "Check logs"; reflexivity).
  assert (Hcf : forall n, record_form (cannot_find n))
    by (intros n; exists n, "Cannot find testsuite artifact"; reflexivity).
  destruct (Format.format artifact_name [current_hash]) as [artifact|e0] eqn:Hf.
  2:{ rewrite process_artifact_run, Hf. exists [], [], []. simpl.
      rewrite !app_nil_r. forms. }
  destruct (repo (artifact +:+ "-report.log")) as [[|a l]|e] eqn:Hr.
  - (* no report artifact *)
    rewrite process_artifact_run, Hf.
    pose proof (check_artifact_exists_cases artifact repo w) as Hc.
    unfold check_paths in Hc. rewrite Hr in Hc.
    destruct (check_artifact_exists artifact repo w) as [res w1]. simpl in Hc.
    destruct Hc as (Hnb & _ & _ & _ & Hc).
    destruct (repo artifact) as [page|e].
    + destruct Hc as (Hfb & -> & Hft). simpl.
      destruct page as [|b bs].
      * exists [check_logs artifact], [], []. rewrite Hfb, Hft, Hnb, !app_nil_r.
        forms.
      * exists [], [cannot_find artifact], []. rewrite Hfb, Hft, Hnb, !app_nil_r.
        forms.
    + destruct Hc as (-> & Hfb & Hft). simpl. exists [], [], [].
      rewrite Hfb, Hft, Hnb, !app_nil_r. forms.
  - (* report artifact found *)
    destruct (process_artifact env repo prev_commits current_hash token
                artifact_name w) as [res w'] eqn:Hrun.
    destruct (process_found_paths _ _ _ _ _ _ _ _ _ _ _ _ Hf Hr Hrun)
      as (w1 & Hnb & _ & _ & Hft & (Hfb & Hfbe) & P). simpl.
    assert (Hd1 : exists d1,
               failed_build w1 = failed_build w ++ d1 /\
               Forall record_form d1 /\
               Forall (fun line => line = record artifact "Check logs") d1).
    { rewrite process_artifact_run, Hf in Hrun.
      pose proof (check_artifact_exists_cases artifact repo w) as Hc.
      unfold check_paths in Hc.
      destruct (repo artifact) as [page|e].
      - rewrite (Hfb page eq_refl). destruct page.
        + exists [check_logs artifact]. forms.
        + exists []. forms.
      - exists []. rewrite (Hfbe e eq_refl). forms. }
    destruct Hd1 as (d1 & Hfb1 & Hd1 & Hd1').
    destruct P as [(e & _ & ->)|[(e & _ & P)|[P|P]]].
    + exists d1, [], []. rewrite Hfb1, Hft, Hnb, !app_nil_r. forms.
    + destruct P as (Hfb' & Hft' & Hnb' & _).
      exists d1, [], []. rewrite Hfb', Hft', Hnb', Hfb1, Hft, Hnb, !app_nil_r.
      forms.
    + destruct P as (x & _ & Hfb' & Hnb' & _ & Hv).
      apply verdict_records in Hv. rewrite Hfb', Hnb', Hfb1, Hnb.
      destruct Hv as [Hv|[e Hv]]; rewrite Hv, Hft.
      * exists d1, [], [(artifact +:+ "-report.log") +:+ PyStr.nl].
        rewrite !app_nil_r. forms.
      * exists d1, [record (artifact +:+ "-report.log") (exn_text e)],
          [(artifact +:+ "-report.log") +:+ PyStr.nl].
        forms.
        -- apply Forall_app. split; [exact Hd1|]. repeat constructor.
           eexists _, _. reflexivity.
        -- right. eauto.
    + destruct P as (x & y & z & _ & _ & _ & Hfb' & Hnb' & _ & Hv).
      apply verdict_records in Hv. rewrite Hfb', Hnb', Hfb1, Hnb.
      destruct Hv as [Hv|[e Hv]]; rewrite Hv, Hft.
      * exists d1, [], []. rewrite !app_nil_r. forms.
      * exists d1, [record (artifact +:+ "-report.log") (exn_text e)], [].
        rewrite !app_nil_r. forms.
        -- apply Forall_app. split; [exact Hd1|]. repeat constructor.
           eexists _, _. reflexivity.
        -- right. eauto.
  - (* the store raises on the report query *)
    rewrite process_artifact_run, Hf.
    pose proof (check_artifact_exists_cases artifact repo w) as Hc.
    unfold check_paths in Hc. rewrite Hr in Hc.
    destruct (check_artifact_exists artifact repo w) as [res w1]. simpl in Hc.
    destruct Hc as (Hnb & _ & _ & _ & Hc).
    destruct (repo artifact) as [page|e'].
    + destruct Hc as (Hfb & -> & Hft). simpl.
      destruct page as [|b bs].
      * exists [check_logs artifact], [], []. rewrite Hfb, Hft, Hnb, !app_nil_r.
        forms.
      * exists [], [], []. rewrite Hfb, Hft, Hnb, !app_nil_r.
        forms.
    + destruct Hc as (-> & Hfb & Hft). simpl. exists [], [], [].
      rewrite Hfb, Hft, Hnb, !app_nil_r. forms.
Qed.

(** ** Comparator errors *)

(** C9, as stated, fails: the handler names two classes, so an exception of
    another class, here a [KeyError], is not caught; it ends the processing
    of the name with no record and the loop with it. *)
Lemma C9_counterexample : ~ comparator_errors_as_stated.
Proof.
  intros H.
  destruct (H (Samples.env_of Samples.found (Raise (Exn KeyError "boom")))
              Samples.repo_both ["def456"] "abc123" "tok" Samples.tmpl []
              empty_world
              (process_artifact
                 (Samples.env_of Samples.found (Raise (Exn KeyError "boom")))
                 Samples.repo_both ["def456"] "abc123" "tok" Samples.tmpl
                 empty_world).2
              (Raise (Exn KeyError "boom"))
              (baseline_args "def456" "gcc-linux-rv64gc-lp64d-def456-multilib"
                 "abc123" Samples.build)
              (Exn KeyError "boom")
              ltac:(vm_compute; reflexivity) ltac:(vm_compute; reflexivity)
              eq_refl) as (Hres & _).
  discriminate Hres.
Qed.

Lemma for_each_step {A} (x : A) (rest : list A) (body : A -> M unit) w w' :
  body x w = (Ok tt, w') ->
  for_each (x :: rest) body w = for_each rest body w'.
Proof. intros H. simpl. unfold mbind, M_bind. now rewrite H. Qed.

Lemma verdict_caught env args report w w' res e :
  verdict env args report w w' res ->
  compare_logs env args = Raise e -> caught e = true ->
  res = Ok tt /\
  failed_testsuite w' = failed_testsuite w ++ [record report (exn_text e)].
Proof. unfold verdict. intros H He Hc. rewrite He, Hc in H. tauto. Qed.

Lemma process_artifact_skipped env repo prev h t name artifact w :
  Format.format name [h] = Ok artifact ->
  match repo (artifact +:+ "-report.log") with
  | Ok (_ :: _) => False
  | _ => True
  end ->
  compared (process_artifact env repo prev h t name w).2 = compared w.
Proof.
  intros Hf Hr. rewrite process_artifact_run, Hf.
  pose proof (check_artifact_exists_cases artifact repo w) as Hc.
  unfold check_paths in Hc.
  destruct (check_artifact_exists artifact repo w) as [r w1]. simpl in Hc.
  destruct Hc as (_ & Hcm & _ & _ & Hc).
  destruct (repo artifact) as [page|e].
  - destruct Hc as (_ & Hc).
    destruct (repo (artifact +:+ "-report.log")) as [[|a l]|e];
      [|contradiction|]; destruct Hc as (-> & _); exact Hcm.
  - destruct Hc as (-> & _). exact Hcm.
Qed.

Lemma comparator_raised env repo prev h t name w w' res args e :
  process_artifact env repo prev h t name w = (res, w') ->
  compared w' = compared w ++ [args] ->
  compare_logs env args = Raise e ->
  exists artifact,
    Format.format name [h] = Ok artifact /\
    summaries w' = summaries w /\
    if caught e
    then res = Ok tt /\
         failed_testsuite w' =
           failed_testsuite w
           ++ [record (artifact +:+ "-report.log") (exn_text e)]
    else res = Raise e /\ failed_testsuite w' = failed_testsuite w.
Proof.
  intros Hrun Hcmp He.
  destruct (Format.format name [h]) as [artifact|e0] eqn:Hf.
  2:{ rewrite process_artifact_run, Hf in Hrun. inversion Hrun; subst.
      now apply app_one_neq in Hcmp. }
  destruct (repo (artifact +:+ "-report.log")) as [[|a l]|e1] eqn:Hr.
  1,3: exfalso;
    pose proof (process_artifact_skipped env repo prev h t name artifact w Hf)
      as Hsk;
    rewrite Hr in Hsk; specialize (Hsk I); rewrite Hrun in Hsk;
    simpl in Hsk; rewrite Hsk in Hcmp; now apply app_one_neq in Hcmp.
  destruct (process_found_paths _ _ _ _ _ _ _ _ _ _ _ _ Hf Hr Hrun)
    as (w1 & _ & Hcm & Hs & Hft & _ & P).
  exists artifact. split; [reflexivity|].
  destruct P as [(e' & _ & ->)|[(e' & _ & P)|[P|P]]].
  - rewrite Hcm in Hcmp. now apply app_one_neq in Hcmp.
  - destruct P as (_ & _ & _ & Hcm' & _). rewrite Hcm', Hcm in Hcmp.
    now apply app_one_neq in Hcmp.
  - destruct P as (x & _ & _ & _ & Hcm' & Hv).
    rewrite Hcm', Hcm in Hcmp. apply app_one_inv in Hcmp. subst args.
    unfold verdict in Hv. rewrite He, Hs, Hft in Hv. exact Hv.
  - destruct P as (x & y & z & _ & _ & _ & _ & _ & Hcm' & Hv).
    rewrite Hcm', Hcm in Hcmp. apply app_one_inv in Hcmp. subst args.
    unfold verdict in Hv. rewrite He, Hs, Hft in Hv. exact Hv.
Qed.

Lemma for_each_raise_first {A} (x : A) (rest : list A) (body : A -> M unit)
    w w' e :
  body x w = (Raise e, w') ->
  for_each (x :: rest) body w = (Raise e, w').
Proof. intros H. simpl. unfold mbind, M_bind. now rewrite H. Qed.

(** C9, amended.  A [RuntimeError] or [ValueError] that the comparator
    raises when called for a name is caught: the processing of the name
    returns, the one line [<artifact>-report.log|<error text>] has been
    appended to the testsuite-failure log, and the loop goes on with the
    remaining templates from the world so reached.  An exception of any
    other class is not caught: the processing of the name raises it,
    nothing is appended to the testsuite-failure log, and the loop ends
    with that exception, the remaining templates left out. *)
Theorem C9_comparator_error_recorded
    (env : Env) (repo : Repository) (prev_commits : list string)
    (current_hash token artifact_name : string) (rest : list string)
    (w w' : World) (res : Res unit) (args : CompareArgs) (e : exn) :
  process_artifact env repo prev_commits current_hash token artifact_name w
    = (res, w') ->
  compared w' = compared w ++ [args] ->
  compare_logs env args = Raise e ->
  (exn_cls e = RuntimeError \/ exn_cls e = ValueError ->
   res = Ok tt /\
   (exists artifact,
      Format.format artifact_name [current_hash] = Ok artifact /\
      failed_testsuite w' =
        failed_testsuite w
        ++ [(artifact +:+ "-report.log") +:+ "|" +:+ exn_text e
            +:+ String (ascii_of_nat 10) EmptyString]) /\
   for_each (artifact_name :: rest)
     (process_artifact env repo prev_commits current_hash token) w
   = for_each rest
       (process_artifact env repo prev_commits current_hash token) w') /\
  (exn_cls e <> RuntimeError -> exn_cls e <> ValueError ->
   res = Raise e /\
   failed_testsuite w' = failed_testsuite w /\
   summaries w' = summaries w /\
   for_each (artifact_name :: rest)
     (process_artifact env repo prev_commits current_hash token) w
   = (Raise e, w')).
Proof.
  intros Hrun Hcmp He.
  destruct (comparator_raised _ _ _ _ _ _ _ _ _ _ _ Hrun Hcmp He)
    as (artifact & Hf & Hs & Hv).
  split.
  - intros Hcls.
    assert (Hcaught : caught e = true)
      by (unfold caught; destruct Hcls as [-> | ->]; reflexivity).
    rewrite Hcaught in Hv. destruct Hv as (-> & Hft).
    split; [reflexivity|]. split; [exists artifact; split; assumption|].
    now apply for_each_step.
  - intros Hr Hv'.
    assert (Hcaught : caught e = false)
      by (unfold caught; destruct (exn_cls e); congruence).
    rewrite Hcaught in Hv. destruct Hv as (-> & Hft).
    repeat split; try assumption. now apply for_each_raise_first.
Qed.

Lemma C9_comparator_error_recorded_witness :
  failed_testsuite
    (process_artifact
       (Samples.env_of Samples.found (Raise (Exn RuntimeError "boom")))
       Samples.repo_both ["def456"] "abc123" "tok" Samples.tmpl
       empty_world).2
    = [Samples.cur_log +:+ "|boom" +:+ String (ascii_of_nat 10) EmptyString] /\
  (process_artifact
     (Samples.env_of Samples.found (Raise (Exn KeyError "boom")))
     Samples.repo_both ["def456"] "abc123" "tok" Samples.tmpl
     empty_world).1
    = Raise (Exn KeyError "boom").
Proof.
  split.
  - destruct (proj1 (C9_comparator_error_recorded
              (Samples.env_of Samples.found (Raise (Exn RuntimeError "boom")))
              Samples.repo_both ["def456"] "abc123" "tok" Samples.tmpl []
              empty_world
              (process_artifact
                 (Samples.env_of Samples.found
                    (Raise (Exn RuntimeError "boom")))
                 Samples.repo_both ["def456"] "abc123" "tok" Samples.tmpl
                 empty_world).2
              (Ok tt)
              (baseline_args "def456" "gcc-linux-rv64gc-lp64d-def456-multilib"
                 "abc123" Samples.build)
              (Exn RuntimeError "boom")
              ltac:(vm_compute; reflexivity) ltac:(vm_compute; reflexivity)
              eq_refl) (or_introl eq_refl))
      as (_ & (artifact & Hf & Hrec) & _).
    injection Hf as <-. exact Hrec.
  - destruct (proj2 (C9_comparator_error_recorded
              (Samples.env_of Samples.found (Raise (Exn KeyError "boom")))
              Samples.repo_both ["def456"] "abc123" "tok" Samples.tmpl []
              empty_world
              (process_artifact
                 (Samples.env_of Samples.found (Raise (Exn KeyError "boom")))
                 Samples.repo_both ["def456"] "abc123" "tok" Samples.tmpl
                 empty_world).2
              (process_artifact
                 (Samples.env_of Samples.found (Raise (Exn KeyError "boom")))
                 Samples.repo_both ["def456"] "abc123" "tok" Samples.tmpl
                 empty_world).1
              (baseline_args "def456" "gcc-linux-rv64gc-lp64d-def456-multilib"
                 "abc123" Samples.build)
              (Exn KeyError "boom")
              ltac:(vm_compute; reflexivity) ltac:(vm_compute; reflexivity)
              eq_refl)
              ltac:(discriminate) ltac:(discriminate))
      as (Hres & _).
    exact Hres.
Defined.

(** ** A report artifact without a build artifact *)

Lemma compare_artifact_requests env prev h t name artifact id w :
  exists more,
    requests (compare_artifact env prev h t name artifact id w).2
    = requests w ++ artifact_url (PyStr.str_of_Z id) :: more.
Proof.
  unfold compare_artifact. unfold mbind, M_bind, lift.
  pose proof (download_artifact_requests env (artifact +:+ "-report.log")
                (PyStr.str_of_Z id) t w) as H1.
  destruct (download_artifact env (artifact +:+ "-report.log")
              (PyStr.str_of_Z id) t w) as [[[]|e1] w1]; simpl in H1;
    [|exists []; exact H1].
  destruct (get_valid_artifact_hash env prev t (name +:+ "-report.log"))
    as [[bh bid]|e2]; [|exists []; exact H1].
  cbv beta iota zeta. simpl fst. simpl snd.
  destruct (String.eqb bh no_valid_hash).
  - unfold print, append_no_baseline. cbv beta iota zeta.
    match goal with
    | |- context [try_except (call_compare_logs env ?a) ?hd ?w0] =>
        pose proof (guarded_compare env a (artifact +:+ "-report.log") w0) as G;
        cbv zeta in G;
        destruct (try_except (call_compare_logs env a) hd w0) as [res w']
    end.
    simpl in G. destruct G as (_ & _ & _ & _ & Gr). simpl.
    exists []. now rewrite Gr, H1.
  - destruct (Format.format (name +:+ "-report.log") [bh]) as [fb|e3];
      [|exists []; exact H1].
    pose proof (download_artifact_requests env fb bid t w1) as H2.
    destruct (download_artifact env fb bid t w1) as [[[]|e4] w2]; simpl in H2;
      [|exists [artifact_url bid]; simpl; rewrite H2, H1, <- app_assoc;
        reflexivity].
    match goal with
    | |- context [try_except ?m ?hd w2] =>
        replace (try_except m hd w2)
          with (try_except
                  (call_compare_logs env
                     {| base_hash_arg := bh;
                        base_log_arg := "./logs/" +:+ fb;
                        current_hash_arg := h;
                        current_log_arg :=
                          "./logs/" +:+ artifact +:+ "-report.log";
                        summary_arg :=
                          "./summaries/" +:+ artifact +:+ "-report-summary.md" |})
                  hd w2)
          by reflexivity
    end.
    match goal with
    | |- context [try_except (call_compare_logs env ?a) ?hd ?w0] =>
        pose proof (guarded_compare env a (artifact +:+ "-report.log") w0) as G;
        cbv zeta in G;
        destruct (try_except (call_compare_logs env a) hd w0) as [res w']
    end.
    simpl in G. destruct G as (_ & _ & _ & _ & Gr). simpl.
    exists [artifact_url bid]. rewrite Gr, H2, H1, <- app_assoc. reflexivity.
Qed.

(** C10. When page 0 has no build artifact but has the report artifact, the
    existence checker appends the record [<artifact>|Check logs] to the
    build-failure log and nothing to the testsuite-failure log, and returns
    the identifier of the report artifact, not [-1]; the orchestrator then
    runs the rest of the loop body for that name: it requests the download
    of that identifier and goes on to the comparison. *)
Theorem C10_report_without_build
    (env : Env) (repo : Repository) (prev_commits : list string)
    (current_hash token artifact_name artifact : string)
    (a : Artifact) (l : list Artifact) (w : World) :
  Format.format artifact_name [current_hash] = Ok artifact ->
  repo artifact = Ok [] ->
  repo (artifact +:+ "-report.log") = Ok (a :: l) ->
  exists w1,
    check_artifact_exists artifact repo w = (Ok (Z.of_N (art_id a)), w1) /\
    Z.of_N (art_id a) <> (-1)%Z /\
    failed_build w1 = failed_build w ++ [record artifact "Check logs"] /\
    failed_testsuite w1 = failed_testsuite w /\
    process_artifact env repo prev_commits current_hash token artifact_name w
    = compare_artifact env prev_commits current_hash token artifact_name
        artifact (Z.of_N (art_id a)) w1 /\
    exists more,
      requests
        (process_artifact env repo prev_commits current_hash token
           artifact_name w).2
      = requests w
        ++ artifact_url (PyStr.str_of_Z (Z.of_N (art_id a))) :: more.
Proof.
  intros Hf Hb Hr.
  rewrite process_artifact_run, Hf.
  pose proof (check_artifact_exists_cases artifact repo w) as Hc.
  unfold check_paths in Hc. rewrite Hb, Hr in Hc.
  destruct (check_artifact_exists artifact repo w) as [r w1].
  simpl in Hc. destruct Hc as (_ & _ & _ & Hreq & Hfb & -> & Hft).
  rewrite of_N_not_sentinel.
  exists w1. split; [reflexivity|]. split; [lia|].
  split; [exact Hfb|]. split; [exact Hft|]. split; [reflexivity|].
  destruct (compare_artifact_requests env prev_commits current_hash token
              artifact_name artifact (Z.of_N (art_id a)) w1) as [more Hm].
  exists more. now rewrite Hm, Hreq.
Qed.

Lemma C10_report_without_build_witness :
  exists w1,
    check_artifact_exists Samples.build Samples.repo_report_only empty_world
      = (Ok 12%Z, w1) /\
    failed_build w1 = [record Samples.build "Check logs"] /\
    process_artifact (Samples.env_of Samples.found (Ok tt))
      Samples.repo_report_only ["def456"] "abc123" "tok" Samples.tmpl
      empty_world
    = compare_artifact (Samples.env_of Samples.found (Ok tt)) ["def456"]
        "abc123" "tok" Samples.tmpl Samples.build 12%Z w1.
Proof.
  destruct (C10_report_without_build
              (Samples.env_of Samples.found (Ok tt)) Samples.repo_report_only
              ["def456"] "abc123" "tok" Samples.tmpl Samples.build
              {| art_id := 12 |} [] empty_world eq_refl eq_refl eq_refl)
    as (w1 & Hchk & _ & Hfb & _ & Hp & _).
  exists w1. split; [exact Hchk|]. split; [exact Hfb|]. exact Hp.
Defined.

(** ** Further properties of the existence checker *)

Lemma check_artifact_exists_files artifact_name repo w :
  files (check_artifact_exists artifact_name repo w).2 = files w.
Proof.
  unfold check_artifact_exists. munfold.
  destruct (repo artifact_name) as [page|e]; [|reflexivity].
  destruct page as [|b bs]; simpl;
    destruct (repo (artifact_name +:+ "-report.log")) as [[|a l]|e];
    reflexivity.
Qed.

(** X1. One call of the existence checker appends at most one failure
    record, and touches nothing else than the two failure logs and standard
    output.  The value [-1] never comes without a record: when it is
    returned exactly one record has been appended.  When an identifier is
    returned nothing has been appended to the testsuite-failure log. *)
Theorem check_artifact_exists_one_record
    (artifact_name : string) (repo : Repository) (w : World) :
  let r := check_artifact_exists artifact_name repo w in
  length (failed_build r.2) + length (failed_testsuite r.2)
    <= length (failed_build w) + length (failed_testsuite w) + 1 /\
  (r.1 = Ok (-1)%Z ->
   length (failed_build r.2) + length (failed_testsuite r.2)
     = length (failed_build w) + length (failed_testsuite w) + 1) /\
  (forall i, r.1 = Ok i -> i <> (-1)%Z ->
   failed_testsuite r.2 = failed_testsuite w) /\
  no_baseline r.2 = no_baseline w /\ compared r.2 = compared w /\
  summaries r.2 = summaries w /\ requests r.2 = requests w /\
  files r.2 = files w.
Proof.
  intros r. subst r.
  pose proof (check_artifact_exists_files artifact_name repo w) as Hfiles.
  pose proof (check_artifact_exists_cases artifact_name repo w) as Hc.
  unfold check_paths in Hc.
  destruct (check_artifact_exists artifact_name repo w) as [res w'].
  simpl in *. destruct Hc as (Hnb & Hcm & Hs & Hrq & Hc).
  assert (Hn : forall n, Ok (Z.of_N n) <> @Ok Z (-1)%Z)
    by (intros n H; inversion H; lia).
  destruct (repo artifact_name) as [page|e].
  - destruct Hc as (Hfb & Hc). rewrite Hfb.
    destruct (repo (artifact_name +:+ "-report.log")) as [[|a l]|e];
      destruct Hc as (-> & ->); rewrite ?List.length_app;
      destruct page; simpl; repeat split; try assumption; try lia;
      try discriminate; try (intros H; now apply Hn in H);
      try (intros i H; inversion H; congruence);
      try (now rewrite app_nil_r).
  - destruct Hc as (-> & -> & ->).
    repeat split; try assumption; try lia; discriminate.
Qed.

(** X2. Errors of the artifact store are not caught by the checker.  When
    the query for the build artifact raises, the checker raises the same
    exception and leaves the world as it was.  When that query returns and
    the query for the report artifact raises, the checker raises that
    exception; nothing is appended to the testsuite-failure log, and the
    build-failure record of an empty first page has already been
    written. *)
Theorem check_artifact_exists_store_errors
    (artifact_name : string) (repo : Repository) (w : World) :
  (forall e, repo artifact_name = Raise e ->
     check_artifact_exists artifact_name repo w = (Raise e, w)) /\
  (forall page e,
     repo artifact_name = Ok page ->
     repo (artifact_name +:+ "-report.log") = Raise e ->
     (check_artifact_exists artifact_name repo w).1 = Raise e /\
     failed_testsuite (check_artifact_exists artifact_name repo w).2
       = failed_testsuite w /\
     failed_build (check_artifact_exists artifact_name repo w).2
       = failed_build w
         ++ match page with
            | [] => [record artifact_name "Check logs"]
            | _ :: _ => []
            end).
Proof.
  split.
  - intros e He. unfold check_artifact_exists. munfold. now rewrite He.
  - intros page e Hp He.
    pose proof (check_artifact_exists_cases artifact_name repo w) as Hc.
    unfold check_paths in Hc. rewrite Hp, He in Hc.
    destruct Hc as (_ & _ & _ & _ & Hfb & Hr & Hft). auto.
Qed.

(** ** Further properties of the downloader *)

(** X3. One call of the downloader makes exactly one request, to the
    archive of the identifier it is given, whether it returns or raises;
    it appends no failure record, calls no comparator and writes no
    summary. *)
Theorem download_artifact_one_request
    (env : Env) (artifact_name artifact_id token : string) (w : World) :
  let w' := (download_artifact env artifact_name artifact_id token w).2 in
  requests w' = requests w ++ [artifact_url artifact_id] /\
  failed_build w' = failed_build w /\
  failed_testsuite w' = failed_testsuite w /\
  no_baseline w' = no_baseline w /\
  compared w' = compared w /\
  summaries w' = summaries w.
Proof.
  intros w'. subst w'. split.
  - apply download_artifact_requests.
  - apply download_artifact_outcomes.
Qed.

Lemma extracted_other dir members (fs : gmap string content) (k : string) :
  (forall m, In m members -> dir +:+ "/" +:+ m.1 <> k) ->
  extracted dir members fs !! k = fs !! k.
Proof.
  unfold extracted. revert fs.
  induction members as [|[n c] members IH]; intros fs H; simpl; [reflexivity|].
  rewrite IH by (intros m Hm; apply H; now right).
  apply lookup_insert_ne. apply (H (n, c)). now left.
Qed.

Lemma extracted_unique dir members (fs : gmap string content) name text :
  NoDup (map fst members) -> In (name, text) members ->
  extracted dir members fs !! (dir +:+ "/" +:+ name) = Some (Raw text).
Proof.
  revert fs. induction members as [|[n c] members IH]; intros fs Hnd Hin;
    [destruct Hin|].
  simpl in Hnd. apply NoDup_cons in Hnd as [Hn Hnd].
  change (extracted dir ((n, c) :: members) fs)
    with (extracted dir members (<[dir +:+ "/" +:+ n := Raw c]> fs)).
  destruct Hin as [E|Hin].
  - inversion E; subst n c.
    rewrite extracted_other; [apply lookup_insert_eq|].
    intros m Hm E'. apply (inj (String.app dir)) in E'.
    apply (inj (String.app "/")) in E'.
    apply Hn. rewrite <- E'. apply list_elem_of_In, in_map, Hm.
  - now apply IH.
Qed.

Lemma replace_split_head (s : string) :
  exists r,
    PyStr.replace ".log" ".zip" s = PyStr.split_head ".log" s +:+ r /\
    (r = "" \/ exists r', r = String "."%char r').
Proof.
  unfold PyStr.replace.
  induction s as [|c s (r & IH & Hr)]; [exists ""; split; [reflexivity|now left]|].
  cbn [PyStr.replace_go PyStr.split_head].
  destruct (PyStr.startswith ".log" (String c s)).
  - eexists. split; [reflexivity|]. right. eexists. reflexivity.
  - exists r. split; [|exact Hr]. rewrite IH. reflexivity.
Qed.

Lemma logs_path_not_zip (name : string) : "./logs/" +:+ name <> zip_path name.
Proof.
  intros E. apply (f_equal String.length) in E.
  rewrite zip_path_length, string_length_app in E. simpl in E. lia.
Qed.

Lemma member_path_not_zip (name m : string) :
  ("./" +:+ PyStr.split_head ".log" name) +:+ "/" +:+ m <> zip_path name.
Proof.
  unfold zip_path. destruct (replace_split_head name) as (r & -> & Hr).
  change (("./" +:+ PyStr.split_head ".log" name) +:+ "/" +:+ m)
    with ("./" +:+ PyStr.split_head ".log" name +:+ "/" +:+ m).
  intros E. apply (inj (String.app "./")) in E.
  apply (inj (String.app (PyStr.split_head ".log" name))) in E.
  destruct Hr as [->|[r' ->]]; discriminate E.
Qed.

Lemma download_artifact_success env name id token w r members c :
  requests_get env (artifact_url id) token = Ok r ->
  body r = Zip members ->
  extracted ("./" +:+ PyStr.split_head ".log" name) members
    (<[zip_path name := Zip members]> (files w)) !! staged_path name = Some c ->
  (download_artifact env name id token w).1 = Ok tt /\
  files (download_artifact env name id token w).2
  = <["./logs/" +:+ name := c]>
      (delete (staged_path name)
         (extracted ("./" +:+ PyStr.split_head ".log" name) members
            (<[zip_path name := Zip members]> (files w)))).
Proof.
  intros H Hb Hc. unfold download_artifact. munfold. simpl. rewrite H. simpl.
  rewrite lookup_insert_eq, Hb. simpl.
  change ("./" +:+ PyStr.split_head ".log" name +:+ "/" +:+ name)
    with (staged_path name).
  change ("./" +:+ PyStr.replace ".log" ".zip" name) with (zip_path name).
  rewrite Hc. simpl. split; reflexivity.
Qed.

(** X4. For a name and a workspace of the kind the flat file map stands
    for: when the response is an archive of plain members in which the
    expected log occurs once (no two members share a name), the download
    returns, the file [./logs/<artifact_name>] then holds the text of that
    member, and the archive itself is still at [./<artifact_name with .log
    replaced by .zip>]: the downloader never deletes it. *)
Theorem download_artifact_places_log
    (env : Env) (artifact_name artifact_id token : string) (w : World)
    (r : Response) (members : list (string * string)) (text : string) :
  requests_get env (artifact_url artifact_id) token = Ok r ->
  body r = Zip members ->
  log_name artifact_name ->
  plain_members members ->
  unobstructed (files w) artifact_name members ->
  NoDup (map fst members) ->
  In (artifact_name, text) members ->
  let res := download_artifact env artifact_name artifact_id token w in
  res.1 = Ok tt /\
  files res.2 !! ("./logs/" +:+ artifact_name) = Some (Raw text) /\
  files res.2 !! zip_path artifact_name = Some (Zip members).
Proof.
  intros H Hb _ _ _ Hnd Hin res. subst res.
  destruct (download_artifact_success env artifact_name artifact_id token w
              r members (Raw text) H Hb) as (Hres & Hfiles).
  { rewrite staged_path_dir. now apply extracted_unique. }
  split; [exact Hres|]. rewrite Hfiles. split.
  - apply lookup_insert_eq.
  - rewrite lookup_insert_ne by apply logs_path_not_zip.
    rewrite lookup_delete_ne
      by (intros E; symmetry in E; now apply zip_path_not_staged in E).
    rewrite extracted_other by (intros m _; apply member_path_not_zip).
    apply lookup_insert_eq.
Qed.

(** X5. A file left at the staging path stands in for a log the archive
    lacks.  For a name and a workspace of the kind the flat file map stands
    for: when the archive, of plain members, has no member of the expected
    name and a file is already at [./<stem>/<artifact_name>], the download
    returns without error and that earlier file is what ends up at
    [./logs/<artifact_name>]. *)
Theorem download_artifact_stale_staged_file
    (env : Env) (artifact_name artifact_id token : string) (w : World)
    (r : Response) (members : list (string * string)) (c : content) :
  requests_get env (artifact_url artifact_id) token = Ok r ->
  body r = Zip members ->
  log_name artifact_name ->
  plain_members members ->
  unobstructed (files w) artifact_name members ->
  ~ In artifact_name (map fst members) ->
  files w !! staged_path artifact_name = Some c ->
  let res := download_artifact env artifact_name artifact_id token w in
  res.1 = Ok tt /\
  files res.2 !! ("./logs/" +:+ artifact_name) = Some c.
Proof.
  intros H Hb _ _ _ Hn Hc res. subst res.
  destruct (download_artifact_success env artifact_name artifact_id token w
              r members c H Hb) as (Hres & Hfiles).
  { rewrite staged_path_dir, extracted_other.
    - rewrite <- staged_path_dir, lookup_insert_ne by apply zip_path_not_staged.
      exact Hc.
    - intros m Hm E. apply (inj (String.app _)) in E.
      apply (inj (String.app "/")) in E. apply Hn. rewrite <- E.
      now apply in_map. }
  split; [exact Hres|]. rewrite Hfiles. apply lookup_insert_eq.
Qed.







(** ** Further properties of the orchestrator *)

(** X7. A name whose report artifact is not on page 0 is skipped without
    any further effect: the processing returns, no request is made, no
    file is written, the comparator is not called, no summary is written
    and nothing is appended to the no-baseline log. *)
Theorem process_artifact_skips_missing_report
    (env : Env) (repo : Repository) (prev_commits : list string)
    (current_hash token artifact_name artifact : string)
    (page : list Artifact) (w : World) :
  Format.format artifact_name [current_hash] = Ok artifact ->
  repo artifact = Ok page ->
  repo (artifact +:+ "-report.log") = Ok [] ->
  exists w',
    process_artifact env repo prev_commits current_hash token artifact_name w
      = (Ok tt, w') /\
    requests w' = requests w /\ files w' = files w /\
    compared w' = compared w /\ summaries w' = summaries w /\
    no_baseline w' = no_baseline w.
Proof.
  intros Hf Hp Hr. rewrite process_artifact_run, Hf.
  pose proof (check_artifact_exists_files artifact repo w) as Hfiles.
  pose proof (check_artifact_exists_cases artifact repo w) as Hc.
  unfold check_paths in Hc. rewrite Hp, Hr in Hc.
  destruct (check_artifact_exists artifact repo w) as [res w'].
  simpl in *. destruct Hc as (Hnb & Hcm & Hs & Hrq & _ & -> & _).
  exists w'. simpl. auto 10.
Qed.

Lemma process_artifact_skips_missing_report_witness :
  exists w',
    process_artifact (Samples.env_of Samples.found (Ok tt))
      Samples.repo_build_only ["def456"] "abc123" "tok" Samples.tmpl
      empty_world = (Ok tt, w') /\
    requests w' = [] /\ compared w' = [].
Proof.
  destruct (process_artifact_skips_missing_report
              (Samples.env_of Samples.found (Ok tt)) Samples.repo_build_only
              ["def456"] "abc123" "tok" Samples.tmpl Samples.build
              [ {| art_id := 11 |} ] empty_world eq_refl eq_refl eq_refl)
    as (w' & Hrun & Hrq & _ & Hcm & _).
  exists w'. auto.
Defined.

(** ** Computations that only append *)

Lemma grows_refl (w : World) : grows w w.
Proof. unfold grows. repeat split; reflexivity. Qed.

Lemma grows_trans (w1 w2 w3 : World) : grows w1 w2 -> grows w2 w3 -> grows w1 w3.
Proof.
  unfold grows.
  intros (A1 & A2 & A3 & A4 & A5 & A6 & A7) (B1 & B2 & B3 & B4 & B5 & B6 & B7).
  repeat split; etransitivity; eassumption.
Qed.

Lemma monotone_ret {A} (a : A) : monotone (mret a : M A).
Proof. intros w. apply grows_refl. Qed.

Lemma monotone_lift {A} (r : Res A) : monotone (lift r).
Proof. intros w. apply grows_refl. Qed.

Lemma monotone_bind {A B} (m : M A) (k : A -> M B) :
  monotone m -> (forall a, monotone (k a)) -> monotone (m ≫= k).
Proof.
  intros Hm Hk w. unfold mbind, M_bind. specialize (Hm w).
  destruct (m w) as [[a|e] w1]; simpl in *; [|exact Hm].
  eapply grows_trans; [exact Hm | apply Hk].
Qed.

Lemma monotone_try_except (m : M unit) (handler : exn -> M unit) :
  monotone m -> (forall e, monotone (handler e)) ->
  monotone (try_except m handler).
Proof.
  intros Hm Hh w. unfold try_except. specialize (Hm w).
  destruct (m w) as [[a|e] w1]; simpl in *; [exact Hm|].
  destruct (caught e); [|exact Hm].
  eapply grows_trans; [exact Hm | apply Hh].
Qed.

Lemma monotone_for_each {A} (xs : list A) (body : A -> M unit) :
  (forall x, monotone (body x)) -> monotone (for_each xs body).
Proof.
  intros Hb. induction xs as [|x xs IH]; simpl.
  - apply monotone_ret.
  - apply monotone_bind; [apply Hb | intros _; exact IH].
Qed.

Ltac grows_step :=
  intros w; unfold grows; simpl; repeat split;
  try reflexivity; apply prefix_app_r; reflexivity.

Lemma monotone_print s : monotone (print s).
Proof. grows_step. Qed.

Lemma monotone_append_failed_build s : monotone (append_failed_build s).
Proof. grows_step. Qed.

Lemma monotone_append_failed_testsuite s :
  monotone (append_failed_testsuite s).
Proof. grows_step. Qed.

Lemma monotone_append_no_baseline s : monotone (append_no_baseline s).
Proof. grows_step. Qed.

Lemma monotone_http_get env url token : monotone (http_get env url token).
Proof. grows_step. Qed.

Lemma monotone_write_file path c : monotone (write_file path c).
Proof. grows_step. Qed.

Lemma monotone_extractall members dir : monotone (extractall members dir).
Proof. grows_step. Qed.

Lemma monotone_open_zip path : monotone (open_zip path).
Proof.
  intros w. unfold open_zip. destruct (files w !! path) as [[]|];
    apply grows_refl.
Qed.

Lemma monotone_os_rename src dst : monotone (os_rename src dst).
Proof.
  intros w. unfold os_rename. destruct (files w !! src); [|apply grows_refl].
  unfold grows. simpl. repeat split; reflexivity.
Qed.

Lemma monotone_call_compare_logs env args :
  monotone (call_compare_logs env args).
Proof.
  intros w. unfold call_compare_logs.
  destruct (compare_logs env args); unfold grows; simpl; repeat split;
    try reflexivity; apply prefix_app_r; reflexivity.
Qed.

Ltac mono :=
  repeat match goal with
    | |- forall _, _ => intro
    | |- monotone (_ ≫= _) => apply monotone_bind
    | |- monotone (mret _) => apply monotone_ret
    | |- monotone (lift _) => apply monotone_lift
    | |- monotone (print _) => apply monotone_print
    | |- monotone (append_failed_build _) =>
        apply monotone_append_failed_build
    | |- monotone (append_failed_testsuite _) =>
        apply monotone_append_failed_testsuite
    | |- monotone (append_no_baseline _) => apply monotone_append_no_baseline
    | |- monotone (http_get _ _ _) => apply monotone_http_get
    | |- monotone (write_file _ _) => apply monotone_write_file
    | |- monotone (extractall _ _) => apply monotone_extractall
    | |- monotone (open_zip _) => apply monotone_open_zip
    | |- monotone (os_rename _ _) => apply monotone_os_rename
    | |- monotone (call_compare_logs _ _) => apply monotone_call_compare_logs
    | |- monotone (try_except _ _) => apply monotone_try_except
    | |- monotone (if ?b then _ else _) => destruct b
    | |- monotone (match ?x with [] => _ | _ :: _ => _ end) => destruct x
    | |- monotone (let _ := _ in _) => cbv zeta
    end.

Lemma monotone_check_artifact_exists artifact_name repo :
  monotone (check_artifact_exists artifact_name repo).
Proof. unfold check_artifact_exists. mono. Qed.

Lemma monotone_download_artifact env artifact_name artifact_id token :
  monotone (download_artifact env artifact_name artifact_id token).
Proof. unfold download_artifact. mono. Qed.

Lemma monotone_compare_artifact env prev h t name artifact id :
  monotone (compare_artifact env prev h t name artifact id).
Proof.
  unfold compare_artifact. cbv zeta.
  apply monotone_bind; [apply monotone_download_artifact|intros _].
  apply monotone_bind; [apply monotone_lift|intros base].
  destruct (String.eqb base.1 no_valid_hash); mono.
  apply monotone_download_artifact.
Qed.

Lemma monotone_process_artifact env repo prev h t name :
  monotone (process_artifact env repo prev h t name).
Proof.
  unfold process_artifact.
  apply monotone_bind; [apply monotone_lift|intros artifact].
  apply monotone_bind; [apply monotone_check_artifact_exists|intros i].
  destruct (i =? -1)%Z; [apply monotone_ret|apply monotone_compare_artifact].
Qed.

(** X8. A run never cuts or rewrites what is on record: whether it
    returns or is ended by an exception, each of the three failure logs,
    the requests made, the comparator calls and the summaries of the world
    it leaves continue those of the world it started from. *)
Theorem run_only_appends (env : Env) (current_hash token : string) (w : World) :
  grows w (download_and_compare_all_artifacts env current_hash token w).2.
Proof.
  revert w. change (monotone (download_and_compare_all_artifacts env
                                current_hash token)).
  unfold download_and_compare_all_artifacts.
  apply monotone_bind; [apply monotone_lift | intros repo].
  apply monotone_bind; [apply monotone_lift | intros prev].
  apply monotone_bind; [apply monotone_lift | intros names].
  apply monotone_for_each. intros x. apply monotone_process_artifact.
Qed.

(** ** How much one run can do *)

Lemma compare_artifact_requests_bound env prev h t name artifact id w :
  length (requests (compare_artifact env prev h t name artifact id w).2)
  <= length (requests w) + 2.
Proof.
  unfold compare_artifact. unfold mbind, M_bind, lift.
  pose proof (download_artifact_requests env (artifact +:+ "-report.log")
                (PyStr.str_of_Z id) t w) as H1.
  destruct (download_artifact env (artifact +:+ "-report.log")
              (PyStr.str_of_Z id) t w) as [[[]|e1] w1]; simpl in H1;
    apply (f_equal (@length string)) in H1;
    rewrite List.length_app in H1; simpl in H1; [|simpl; lia].
  destruct (get_valid_artifact_hash env prev t (name +:+ "-report.log"))
    as [[bh bid]|e2]; [|simpl; lia].
  cbv beta iota zeta. simpl fst. simpl snd.
  destruct (String.eqb bh no_valid_hash).
  - unfold print, append_no_baseline. cbv beta iota zeta.
    match goal with
    | |- context [try_except (call_compare_logs env ?a) ?hd ?w0] =>
        pose proof (guarded_compare env a (artifact +:+ "-report.log") w0) as G;
        cbv zeta in G;
        destruct (try_except (call_compare_logs env a) hd w0) as [res w']
    end.
    simpl in G. destruct G as (_ & _ & _ & _ & Gr). simpl. rewrite Gr. lia.
  - destruct (Format.format (name +:+ "-report.log") [bh]) as [fb|e3];
      [|simpl; lia].
    pose proof (download_artifact_requests env fb bid t w1) as H2.
    destruct (download_artifact env fb bid t w1) as [[[]|e4] w2]; simpl in H2;
      apply (f_equal (@length string)) in H2;
      rewrite List.length_app in H2; simpl in H2; [|simpl; lia].
    match goal with
    | |- context [try_except ?m ?hd w2] =>
        replace (try_except m hd w2)
          with (try_except
                  (call_compare_logs env
                     {| base_hash_arg := bh;
                        base_log_arg := "./logs/" +:+ fb;
                        current_hash_arg := h;
                        current_log_arg :=
                          "./logs/" +:+ artifact +:+ "-report.log";
                        summary_arg :=
                          "./summaries/" +:+ artifact +:+ "-report-summary.md" |})
                  hd w2)
          by reflexivity
    end.
    match goal with
    | |- context [try_except (call_compare_logs env ?a) ?hd ?w0] =>
        pose proof (guarded_compare env a (artifact +:+ "-report.log") w0) as G;
        cbv zeta in G;
        destruct (try_except (call_compare_logs env a) hd w0) as [res w']
    end.
    simpl in G. destruct G as (_ & _ & _ & _ & Gr). simpl. rewrite Gr. lia.
Qed.

Lemma verdict_summary_bound env args report w w' res :
  verdict env args report w w' res ->
  length (summaries w') <= length (summaries w) + 1.
Proof.
  unfold verdict. destruct (compare_logs env args) as [[]|e].
  - intros (_ & -> & _). rewrite List.length_app. simpl. lia.
  - intros (-> & _). lia.
Qed.

Lemma compare_artifact_bounds env prev h t name artifact id w :
  let w' := (compare_artifact env prev h t name artifact id w).2 in
  length (compared w') <= length (compared w) + 1 /\
  length (requests w') <= length (requests w) + 2 /\
  length (summaries w') <= length (summaries w) + 1.
Proof.
  intros w'. subst w'.
  split; [|split; [apply compare_artifact_requests_bound|]];
    pose proof (compare_artifact_cases env prev h t name artifact id w) as P;
    destruct (compare_artifact env prev h t name artifact id w) as [res w'];
    simpl in *;
    (destruct P as [(e & _ & P)|[P|P]];
     [destruct P as (_ & _ & _ & Hc & Hs); rewrite ?Hc, ?Hs; lia
     |destruct P as (x & _ & _ & _ & Hc & Hv)
     |destruct P as (x & y & z & _ & _ & _ & _ & _ & Hc & Hv)]).
  1,2: rewrite Hc, List.length_app; simpl; lia.
  1,2: now apply verdict_summary_bound in Hv.
Qed.

Lemma process_artifact_bounds env repo prev h t name w :
  let w' := (process_artifact env repo prev h t name w).2 in
  length (compared w') <= length (compared w) + 1 /\
  length (requests w') <= length (requests w) + 2 /\
  length (summaries w') <= length (summaries w) + 1.
Proof.
  intros w'. subst w'. rewrite process_artifact_run.
  destruct (Format.format name [h]) as [artifact|e]; [|simpl; lia].
  pose proof (check_artifact_exists_cases artifact repo w) as Hc.
  unfold check_paths in Hc.
  destruct (check_artifact_exists artifact repo w) as [[i|e] w1]; simpl in Hc;
    destruct Hc as (_ & Hcm & Hs & Hrq & _).
  - destruct (i =? -1)%Z.
    + simpl. rewrite Hcm, Hs, Hrq. lia.
    + pose proof (compare_artifact_bounds env prev h t name artifact i w1) as B.
      cbv zeta in B. rewrite Hcm, Hs, Hrq in B. exact B.
  - simpl. rewrite Hcm, Hs, Hrq. lia.
Qed.

Lemma for_each_bound {A} (f : World -> nat) (k : nat) (body : A -> M unit)
    (xs : list A) :
  (forall x w, f (body x w).2 <= f w + k) ->
  forall w, f (for_each xs body w).2 <= f w + k * length xs.
Proof.
  intros Hb. induction xs as [|x xs IH]; intros w; simpl; [lia|].
  unfold mbind, M_bind. specialize (Hb x w).
  destruct (body x w) as [[[]|e] w1]; simpl in *.
  - specialize (IH w1). lia.
  - lia.
Qed.

Lemma run_unfold env current_hash token w :
  download_and_compare_all_artifacts env current_hash token w =
  match get_repo env token "patrick-rivos/riscv-gnu-toolchain" with
  | Raise e => (Raise e, w)
  | Ok repo =>
      match gcc_hashes env current_hash false with
      | Raise e => (Raise e, w)
      | Ok prev_commits =>
          for_each
            ["gcc-linux-rv32gc-ilp32d-{}-non-multilib";
             "gcc-linux-rv64gc-lp64d-{}-multilib";
             "gcc-linux-rv64gc-lp64d-{}-non-multilib";
             "gcc-newlib-rv32gc-ilp32d-{}-non-multilib";
             "gcc-newlib-rv64gc-lp64d-{}-multilib";
             "gcc-newlib-rv64gc-lp64d-{}-non-multilib"]
            (process_artifact env repo prev_commits current_hash token) w
      end
  end.
Proof.
  unfold download_and_compare_all_artifacts. rewrite names_value.
  unfold mbind at 1 2 3, M_bind, lift.
  destruct (get_repo env token "patrick-rivos/riscv-gnu-toolchain");
    [|reflexivity].
  destruct (gcc_hashes env current_hash false); reflexivity.
Qed.

(** X9. One run, whether it returns or is ended by an exception, calls the
    comparator at most six times, makes at most twelve requests for
    archives and writes at most six summaries: one comparison, two
    downloads and one summary at most for each of the six templates. *)
Theorem run_bounds (env : Env) (current_hash token : string) (w : World) :
  let w' := (download_and_compare_all_artifacts env current_hash token w).2 in
  length (compared w') <= length (compared w) + 6 /\
  length (requests w') <= length (requests w) + 12 /\
  length (summaries w') <= length (summaries w) + 6.
Proof.
  intros w'. subst w'. rewrite run_unfold.
  destruct (get_repo env token "patrick-rivos/riscv-gnu-toolchain")
    as [repo|e]; [|simpl; lia].
  destruct (gcc_hashes env current_hash false) as [prev|e]; [|simpl; lia].
  pose proof (for_each_bound (fun w => length (compared w)) 1
                (process_artifact env repo prev current_hash token)) as Hc.
  pose proof (for_each_bound (fun w => length (requests w)) 2
                (process_artifact env repo prev current_hash token)) as Hr.
  pose proof (for_each_bound (fun w => length (summaries w)) 1
                (process_artifact env repo prev current_hash token)) as Hs.
  match goal with
  | |- context [for_each ?names _ w] =>
      specialize (Hc names (fun x w0 => proj1 (process_artifact_bounds env repo prev current_hash token x w0)) w);
      specialize (Hr names (fun x w0 => proj1 (proj2 (process_artifact_bounds env repo prev current_hash token x w0))) w);
      specialize (Hs names (fun x w0 => proj2 (proj2 (process_artifact_bounds env repo prev current_hash token x w0))) w)
  end.
  cbv beta in Hc, Hr, Hs.
  match type of Hc with
  | context [length ?names] =>
      match names with
      | _ :: _ => change (length names) with 6 in Hc, Hr, Hs
      end
  end.
  cbv beta iota. lia.
Qed.

(** ** A run against a store that holds nothing *)

Lemma process_artifact_no_artifacts env repo prev h t name artifact w :
  Format.format name [h] = Ok artifact ->
  repo artifact = Ok [] ->
  repo (artifact +:+ "-report.log") = Ok [] ->
  exists w',
    process_artifact env repo prev h t name w = (Ok tt, w') /\
    failed_build w' = failed_build w ++ [record artifact "Check logs"] /\
    failed_testsuite w' = failed_testsuite w /\
    no_baseline w' = no_baseline w /\ requests w' = requests w /\
    compared w' = compared w /\ summaries w' = summaries w /\
    files w' = files w.
Proof.
  intros Hf Hp Hr. rewrite process_artifact_run, Hf.
  pose proof (check_artifact_exists_files artifact repo w) as Hfiles.
  pose proof (check_artifact_exists_cases artifact repo w) as Hc.
  unfold check_paths in Hc. rewrite Hp, Hr in Hc.
  destruct (check_artifact_exists artifact repo w) as [res w'].
  simpl in *. destruct Hc as (Hnb & Hcm & Hs & Hrq & Hfb & -> & Hft).
  exists w'. simpl. rewrite app_nil_r in Hft. auto 10.
Qed.

Lemma rendered_Ok (h name artifact : string) :
  Format.format name [h] = Ok artifact -> rendered h name = artifact.
Proof. unfold rendered. now intros ->. Qed.

Lemma for_each_no_artifacts env repo prev h t names :
  (forall n, repo n = Ok []) ->
  Forall (fun n => exists a, Format.format n [h] = Ok a) names ->
  forall w, exists w',
    for_each names (process_artifact env repo prev h t) w = (Ok tt, w') /\
    failed_build w' =
      failed_build w
      ++ map (fun n => record (rendered h n) "Check logs") names /\
    failed_testsuite w' = failed_testsuite w /\
    no_baseline w' = no_baseline w /\ requests w' = requests w /\
    compared w' = compared w /\ summaries w' = summaries w /\
    files w' = files w.
Proof.
  intros Hrepo. induction 1 as [|n names [a Ha] _ IH]; intros w.
  - exists w. simpl. rewrite app_nil_r. auto 10.
  - destruct (process_artifact_no_artifacts env repo prev h t n a w Ha
                (Hrepo _) (Hrepo _))
      as (w1 & Hrun & Hfb & Hft & Hnb & Hrq & Hcm & Hs & Hfi).
    destruct (IH w1) as (w' & Hrun' & Hfb' & Hft' & Hnb' & Hrq' & Hcm' & Hs' & Hfi').
    exists w'. split.
    + simpl. unfold mbind, M_bind. rewrite Hrun. exact Hrun'.
    + rewrite Hfb', Hfb, Hft', Hft, Hnb', Hnb, Hrq', Hrq, Hcm', Hcm, Hs', Hs,
        Hfi', Hfi.
      rewrite List.map_cons, (rendered_Ok h n a Ha), <- app_assoc.
      repeat split; reflexivity.
Qed.

(** X10. When page 0 of the store is empty for every name, the run
    returns; it has appended six records [<artifact>|Check logs] to the
    build-failure log, one for each template in the order of the
    generator, and nothing to the other two logs; it has made no request,
    written no file, called no comparator and written no summary. *)
Theorem run_with_empty_store
    (env : Env) (repo : Repository) (prev_commits : list string)
    (current_hash token : string) (w : World) :
  get_repo env token "patrick-rivos/riscv-gnu-toolchain" = Ok repo ->
  gcc_hashes env current_hash false = Ok prev_commits ->
  (forall n, repo n = Ok []) ->
  exists w',
    download_and_compare_all_artifacts env current_hash token w
      = (Ok tt, w') /\
    failed_build w' =
      failed_build w
      ++ [record ("gcc-linux-rv32gc-ilp32d-" +:+ current_hash
                  +:+ "-non-multilib") "Check logs";
          record ("gcc-linux-rv64gc-lp64d-" +:+ current_hash
                  +:+ "-multilib") "Check logs";
          record ("gcc-linux-rv64gc-lp64d-" +:+ current_hash
                  +:+ "-non-multilib") "Check logs";
          record ("gcc-newlib-rv32gc-ilp32d-" +:+ current_hash
                  +:+ "-non-multilib") "Check logs";
          record ("gcc-newlib-rv64gc-lp64d-" +:+ current_hash
                  +:+ "-multilib") "Check logs";
          record ("gcc-newlib-rv64gc-lp64d-" +:+ current_hash
                  +:+ "-non-multilib") "Check logs"] /\
    failed_testsuite w' = failed_testsuite w /\
    no_baseline w' = no_baseline w /\ requests w' = requests w /\
    compared w' = compared w /\ summaries w' = summaries w /\
    files w' = files w.
Proof.
  intros Hg Hh Hrepo. rewrite run_unfold, Hg, Hh.
  match goal with
  | |- context [for_each ?names _ w] =>
      destruct (for_each_no_artifacts env repo prev_commits current_hash token
                  names Hrepo) with (w := w) as (w' & Hrun & Hfb & Hrest)
  end.
  { repeat constructor; eexists; reflexivity. }
  exists w'. split; [exact Hrun|]. split; [|exact Hrest].
  rewrite Hfb. reflexivity.
Qed.

Lemma run_with_empty_store_witness :
  exists w',
    download_and_compare_all_artifacts
      (Faults.env_with Samples.repo_none) "abc123" "tok" empty_world
      = (Ok tt, w') /\
    length (failed_build w') = 6 /\ requests w' = [].
Proof.
  destruct (run_with_empty_store
              (Faults.env_with Samples.repo_none)
              Samples.repo_none ["def456"] "abc123" "tok" empty_world
              eq_refl eq_refl (fun _ => eq_refl))
    as (w' & Hrun & Hfb & _ & _ & Hrq & _).
  exists w'. split; [exact Hrun|]. split; [|exact Hrq].
  rewrite Hfb. reflexivity.
Defined.

(** ** Rendered names *)

Lemma rendered_names (h : string) :
  map (rendered h)
    ["gcc-linux-rv32gc-ilp32d-{}-non-multilib";
     "gcc-linux-rv64gc-lp64d-{}-multilib";
     "gcc-linux-rv64gc-lp64d-{}-non-multilib";
     "gcc-newlib-rv32gc-ilp32d-{}-non-multilib";
     "gcc-newlib-rv64gc-lp64d-{}-multilib";
     "gcc-newlib-rv64gc-lp64d-{}-non-multilib"]
  = ["gcc-linux-rv32gc-ilp32d-" +:+ h +:+ "-non-multilib";
     "gcc-linux-rv64gc-lp64d-" +:+ h +:+ "-multilib";
     "gcc-linux-rv64gc-lp64d-" +:+ h +:+ "-non-multilib";
     "gcc-newlib-rv32gc-ilp32d-" +:+ h +:+ "-non-multilib";
     "gcc-newlib-rv64gc-lp64d-" +:+ h +:+ "-multilib";
     "gcc-newlib-rv64gc-lp64d-" +:+ h +:+ "-non-multilib"].
Proof. reflexivity. Qed.

Lemma suffix_differs (p h : string) :
  p +:+ h +:+ "-multilib" <> p +:+ h +:+ "-non-multilib".
Proof.
  intros E. apply (inj (String.app p)) in E. apply (inj (String.app h)) in E.
  discriminate E.
Qed.

Ltac differ E :=
  first
    [ now apply suffix_differs in E
    | symmetry in E; now apply suffix_differs in E
    | cbv [String.append] in E; discriminate E ].

(** X11. Whatever the hash, the six templates render to six different
    artifact names: no two templates of a run share a log path or a
    summary path. *)
Theorem rendered_names_distinct (current_hash : string) (names : list string) :
  get_possible_artifact_names = Ok names ->
  NoDup (map (rendered current_hash) names).
Proof.
  rewrite names_value. intros E. injection E as <-.
  rewrite rendered_names.
  repeat (apply NoDup_cons_2;
          [intros H; apply list_elem_of_In in H; simpl in H|]).
  all: try apply NoDup_nil_2.
  all: repeat (destruct H as [H|H]; [differ H|]); try contradiction.
Qed.

Lemma rendered_names_distinct_witness :
  NoDup
    (map (rendered "abc123")
       ["gcc-linux-rv32gc-ilp32d-{}-non-multilib";
        "gcc-linux-rv64gc-lp64d-{}-multilib";
        "gcc-linux-rv64gc-lp64d-{}-non-multilib";
        "gcc-newlib-rv32gc-ilp32d-{}-non-multilib";
        "gcc-newlib-rv64gc-lp64d-{}-multilib";
        "gcc-newlib-rv64gc-lp64d-{}-non-multilib"]).
Proof. apply (rendered_names_distinct "abc123"). reflexivity. Defined.

(** ** The comparison with a baseline, from the environment alone *)




(** ** A propagated exception ends the run *)

Lemma for_each_raise {A} (xs : list A) (x : A) (ys : list A)
    (body : A -> M unit) w w1 w2 e :
  for_each xs body w = (Ok tt, w1) ->
  body x w1 = (Raise e, w2) ->
  for_each (xs ++ x :: ys) body w = (Raise e, w2).
Proof.
  revert w. induction xs as [|z xs IH]; intros w Hxs Hx; simpl in *.
  - inversion Hxs; subst. unfold mbind, M_bind. now rewrite Hx.
  - unfold mbind, M_bind in *.
    destruct (body z w) as [[[]|e'] w']; [|discriminate].
    now apply IH.
Qed.

(** X13. The loop catches nothing of its own: when the templates before
    one have been processed and the processing of that one raises, the run
    ends with that exception in the world reached then, and the templates
    after it are not processed. *)
Theorem run_stops_at_first_error
    (env : Env) (repo : Repository) (prev_commits : list string)
    (current_hash token : string) (xs : list string) (x : string)
    (ys : list string) (w w1 w2 : World) (e : exn) :
  get_repo env token "patrick-rivos/riscv-gnu-toolchain" = Ok repo ->
  gcc_hashes env current_hash false = Ok prev_commits ->
  get_possible_artifact_names = Ok (xs ++ x :: ys) ->
  for_each xs (process_artifact env repo prev_commits current_hash token) w
    = (Ok tt, w1) ->
  process_artifact env repo prev_commits current_hash token x w1
    = (Raise e, w2) ->
  download_and_compare_all_artifacts env current_hash token w = (Raise e, w2).
Proof.
  intros Hg Hh Hn Hxs Hx. unfold download_and_compare_all_artifacts.
  rewrite Hn. unfold mbind at 1 2 3, M_bind, lift. rewrite Hg, Hh.
  eapply for_each_raise; eassumption.
Qed.

Lemma run_stops_at_first_error_witness :
  (download_and_compare_all_artifacts
     (Faults.env_with Faults.repo_unserved) "abc123" "tok" empty_world).1
  = Raise (Exn ConnectionError "unreachable").
Proof.
  rewrite (run_stops_at_first_error
             (Faults.env_with Faults.repo_unserved) Faults.repo_unserved
             ["def456"] "abc123" "tok" []
             "gcc-linux-rv32gc-ilp32d-{}-non-multilib"
             ["gcc-linux-rv64gc-lp64d-{}-multilib";
              "gcc-linux-rv64gc-lp64d-{}-non-multilib";
              "gcc-newlib-rv32gc-ilp32d-{}-non-multilib";
              "gcc-newlib-rv64gc-lp64d-{}-multilib";
              "gcc-newlib-rv64gc-lp64d-{}-non-multilib"]
             empty_world empty_world
             (process_artifact (Faults.env_with Faults.repo_unserved)
                Faults.repo_unserved ["def456"] "abc123" "tok"
                "gcc-linux-rv32gc-ilp32d-{}-non-multilib" empty_world).2
             (Exn ConnectionError "unreachable")
             eq_refl eq_refl eq_refl eq_refl
             ltac:(vm_compute; reflexivity)).
  reflexivity.
Defined.

(** ** The further properties at concrete inputs *)

Lemma check_artifact_exists_one_record_witness :
  length (failed_build
            (check_artifact_exists Samples.build Samples.repo_none
               empty_world).2)
  + length (failed_testsuite
              (check_artifact_exists Samples.build Samples.repo_none
                 empty_world).2)
  = 1.
Proof.
  apply (proj1 (proj2 (check_artifact_exists_one_record
                         Samples.build Samples.repo_none empty_world))).
  reflexivity.
Defined.

Lemma check_artifact_exists_store_errors_witness :
  check_artifact_exists Samples.build Faults.repo_down empty_world
    = (Raise (Exn GithubException "502"), empty_world) /\
  failed_build
    (check_artifact_exists Samples.build Faults.repo_report_down
       empty_world).2
    = [record Samples.build "Check logs"].
Proof.
  split.
  - apply (proj1 (check_artifact_exists_store_errors
                    Samples.build Faults.repo_down empty_world)).
    reflexivity.
  - apply (proj2 (check_artifact_exists_store_errors
                    Samples.build Faults.repo_report_down empty_world)
             [] (Exn GithubException "502")); reflexivity.
Defined.

Lemma download_artifact_places_log_witness :
  files
    (download_artifact (Samples.env_of Samples.found (Ok tt))
       Samples.cur_log "12" "tok" empty_world).2
    !! ("./logs/" +:+ Samples.cur_log)
  = Some (Raw "PASS: a.c").
Proof.
  apply (download_artifact_places_log
           (Samples.env_of Samples.found (Ok tt)) Samples.cur_log "12" "tok"
           empty_world
           {| status_code := 200;
              body := Zip [(Samples.cur_log, "PASS: a.c")] |}
           [(Samples.cur_log, "PASS: a.c")] "PASS: a.c").
  - reflexivity.
  - reflexivity.
  - unfold log_name. empty_workspace.
  - empty_workspace.
  - unfold unobstructed. empty_workspace.
  - apply NoDup_singleton.
  - simpl. now left.
Defined.

(** A workspace that holds one file. *)
Ltac one_file_workspace :=
  repeat match goal with
    | |- _ /\ _ => split
    | |- nothing_below _ _ =>
        let Hk := fresh "Hk" in
        intros ? [? Hk]; simpl in Hk;
        apply lookup_singleton_Some in Hk as [<- _]; reflexivity
    | |- forall _, In _ _ -> nothing_below _ _ => intros ? [<-|[]]
    | |- _ !! _ = None => reflexivity
    | |- component _ = true => reflexivity
    | |- PyStr.contains _ _ = true => reflexivity
    | |- plain_members _ => repeat constructor
    end.

Lemma download_artifact_stale_staged_file_witness :
  files
    (download_artifact (Samples.env_of Samples.found (Ok tt))
       Samples.cur_log "7" "tok"
       (set_files {[ staged_path Samples.cur_log := Raw "FAIL: old.c" ]}
          empty_world)).2
    !! ("./logs/" +:+ Samples.cur_log)
  = Some (Raw "FAIL: old.c").
Proof.
  apply (download_artifact_stale_staged_file
           (Samples.env_of Samples.found (Ok tt)) Samples.cur_log "7" "tok"
           (set_files {[ staged_path Samples.cur_log := Raw "FAIL: old.c" ]}
              empty_world)
           {| status_code := 200;
              body := Zip [(Samples.base_log, "PASS: a.c")] |}
           [(Samples.base_log, "PASS: a.c")] (Raw "FAIL: old.c")).
  - reflexivity.
  - reflexivity.
  - unfold log_name. one_file_workspace.
  - one_file_workspace.
  - unfold unobstructed. split.
    + intros k [c Hk]. simpl in Hk.
      apply lookup_singleton_Some in Hk as [<- _]. split.
      * exists ["gcc-linux-rv64gc-lp64d-abc123-multilib-report";
                "gcc-linux-rv64gc-lp64d-abc123-multilib-report.log"].
        split; [discriminate|]. split; [repeat constructor|reflexivity].
      * one_file_workspace.
    + one_file_workspace.
  - simpl. intros [E|[]]. discriminate E.
  - vm_compute. reflexivity.
Defined.
